(** * Hackathon: the ingestion adapter and the evaluation adapter

    A shallow embedding of [doc_loader.py] and [ragas_evaluator.py].

    Both files are glue around external libraries (langchain loaders,
    deepeval metrics).  The libraries are not part of the repository, so
    they enter the model as records of functions (an oracle): what a
    constructor or a method call returns or raises is whatever the
    oracle says.  Everything the repository's own code does with those
    answers (control flow, [try]/[except], the module-level list, the
    dictionary of results, the average) is modelled as written. *)

From Stdlib Require Import ZArith List String Ascii Bool SpecFloat.
From stdpp Require Import gmap strings list.

Set Default Proof Using "Type".
Local Open Scope string_scope.
Local Open Scope list_scope.

(** ** Python exceptions and a state/exception monad *)

(** A raised object.  [except Exception] catches instances of
    [Exception] only; [KeyboardInterrupt], [SystemExit] and
    [GeneratorExit] derive from [BaseException] directly and pass
    through such a handler.  [exn_str] is [str(e)]. *)
Record exn := mk_exn { exn_is_Exception : bool; exn_str : string }.

Inductive result (A : Type) : Type :=
| Ok (a : A)
| Raise (e : exn).
Arguments Ok {A} a.
Arguments Raise {A} e.

(** A computation over a store [S]: the store survives a raise (Python
    does not roll back side effects when an exception unwinds). *)
Definition M (S A : Type) : Type := S -> result A * S.

Definition ret {S A} (a : A) : M S A := fun s => (Ok a, s).

Definition bind {S A B} (c : M S A) (k : A -> M S B) : M S B :=
  fun s => match c s with
           | (Ok a, s') => k a s'
           | (Raise e, s') => (Raise e, s')
           end.

Definition get {S} : M S S := fun s => (Ok s, s).

Definition modify {S} (f : S -> S) : M S unit := fun s => (Ok tt, f s).

(** Lifting the answer of an external call into the monad. *)
Definition lift {S A} (r : result A) : M S A := fun s => (r, s).

(** [try: body except Exception as e: handler e]. *)
Definition try_except {S A} (body : M S A) (handler : exn -> M S A) : M S A :=
  fun s => match body s with
           | (Ok a, s') => (Ok a, s')
           | (Raise e, s') =>
               if exn_is_Exception e then handler e s' else (Raise e, s')
           end.

Notation "x <- c1 ;; c2" := (bind c1 (fun x => c2))
  (at level 100, c1 at next level, right associativity).
Notation "c1 ;;; c2" := (bind c1 (fun _ => c2))
  (at level 100, right associativity).

(** [for x in l: body x] *)
Fixpoint for_each {S A} (body : A -> M S unit) (l : list A) : M S unit :=
  match l with
  | [] => ret tt
  | x :: l' => body x ;;; for_each body l'
  end.

(** [for x in l: acc = body x acc], for loops that update local
    variables. *)
Fixpoint for_fold {S A L} (body : A -> L -> M S L) (l : list A) (acc : L) : M S L :=
  match l with
  | [] => ret acc
  | x :: l' => acc' <- body x acc ;; for_fold body l' acc'
  end.

(** [x or []] for an argument that defaults to [None]. *)
Definition or_empty {A} (x : option (list A)) : list A :=
  match x with
  | Some (a :: l) => a :: l
  | Some [] | None => []
  end.

(** Truth value of a list: non-empty. *)
Definition truthy {A} (l : list A) : bool :=
  match l with
  | [] => false
  | _ :: _ => true
  end.

(** What a result may do without getting past [except Exception]. *)
Definition catchable {A} (r : result A) : Prop :=
  match r with
  | Ok _ => True
  | Raise e => exn_is_Exception e = true
  end.

(** ** Python floats *)

(** The arithmetic [evaluate] relies on.  [float_of_int n] is [float(n)]
    ([None] stands for [OverflowError]); [py_sum] is the builtin [sum]
    applied to a list of floats (start value [0]); [truediv_len x n] is
    [x / n] for the integer [n] that [len] returned. *)
Class FloatOps (F : Type) := {
  float_of_int : Z -> option F;
  py_sum : list F -> F;
  truediv_len : F -> nat -> F
}.

(** IEEE 754 binary64, the format of CPython's [float]. *)
Module binary64.
Definition prec : Z := 53.
Definition emax : Z := 1024.
Definition float := spec_float.

Definition add : float -> float -> float := SFadd prec emax.
Definition div : float -> float -> float := SFdiv prec emax.

(** The integer [z] rounded to the nearest float, ties to even. *)
Definition of_Z (z : Z) : float := binary_normalize prec emax z 0 false.

Definition of_int (z : Z) : option float :=
  match of_Z z with
  | S754_infinity _ => None
  | f => Some f
  end.

(** Left-to-right accumulation from the integer [0].  (CPython 3.12
    and later add a compensation term to the float fast path of
    [sum]; it is zero for lists of fewer than two elements.) *)
Definition sum (l : list float) : float := fold_left add l (S754_zero false).

Definition div_len (x : float) (n : nat) : float := div x (of_Z (Z.of_nat n)).

#[export] Instance ops : FloatOps float :=
  {| float_of_int := of_int; py_sum := sum; truediv_len := div_len |}.

(** [0.8], i.e. [0x1.999999999999ap-1]. *)
Definition f0_8 : float := S754_finite false 7205759403792794 (-53).
(** [0.5] *)
Definition f0_5 : float := S754_finite false 4503599627370496 (-53).
End binary64.

(** ** Python values that a metric may hand back as score or reason *)

Inductive pyval (F : Type) : Type :=
| PyNone
| PyBool (b : bool)
| PyInt (z : Z)
| PyFloat (f : F)
| PyStr (s : string).
Arguments PyNone {F}.
Arguments PyBool {F} b.
Arguments PyInt {F} z.
Arguments PyFloat {F} f.
Arguments PyStr {F} s.

(** [isinstance(v, (int, float))]; [bool] is a subclass of [int]. *)
Definition isinstance_int_float {F} (v : pyval F) : bool :=
  match v with
  | PyBool _ | PyInt _ | PyFloat _ => true
  | PyNone | PyStr _ => false
  end.

Definition OverflowError : exn :=
  mk_exn true "int too large to convert to float".

(** [float(v)] for a value that passed [isinstance_int_float]. *)
Definition py_float {F} `{FloatOps F} (v : pyval F) : result F :=
  match v with
  | PyFloat f => Ok f
  | PyInt z =>
      match float_of_int z with Some f => Ok f | None => Raise OverflowError end
  | PyBool b =>
      match float_of_int (Z.b2z b) with Some f => Ok f | None => Raise OverflowError end
  | PyNone | PyStr _ =>
      Raise (mk_exn true "float() argument must be a string or a real number")
  end.

(** ** Strings *)

(** [str.lower] on the ASCII range, which is where it can change
    whether a path ends in [.pdf], [.xls] or [.xlsx]. *)
Definition lower_ascii (c : ascii) : ascii :=
  let n := nat_of_ascii c in
  if Nat.leb 65 n && Nat.leb n 90 then ascii_of_nat (n + 32) else c.

Fixpoint lower (s : string) : string :=
  match s with
  | EmptyString => EmptyString
  | String c s' => String (lower_ascii c) (lower s')
  end.

(** [s.endswith(suffix)] *)
Fixpoint endswith (s suffix : string) : bool :=
  if String.eqb s suffix then true
  else match s with
       | EmptyString => false
       | String _ s' => endswith s' suffix
       end.

(** ** ragas_evaluator.py *)

Module ragas_evaluator.

(** An opaque handle for the [model] and [embeddings] arguments:
    [None], or something that identifies the object passed. *)
Definition handle := option string.

(** [LLMTestCase(input=..., actual_output=..., context=...,
    retrieval_context=...)] *)
Record LLMTestCase := {
  input : string;
  actual_output : string;
  context : list string;
  retrieval_context : list string
}.

Inductive metric_class :=
| RAGASAnswerRelevancyMetric
| AnswerRelevancyMetric
| BiasMetric
| HallucinationMetric.

(** [cls.__name__] *)
Definition class_name (c : metric_class) : string :=
  match c with
  | RAGASAnswerRelevancyMetric => "RAGASAnswerRelevancyMetric"
  | AnswerRelevancyMetric => "AnswerRelevancyMetric"
  | BiasMetric => "BiasMetric"
  | HallucinationMetric => "HallucinationMetric"
  end.

(** Keyword arguments of the metric constructors; [None] where the call
    does not pass the keyword. *)
Record ctor_args := {
  kw_model : handle;
  kw_embeddings : option handle;
  kw_include_reason : option bool;
  kw_async_mode : option bool;
  kw_track : option bool
}.

Section Evaluator.
Context {F : Type} `{FloatOps F}.

(** A metric instance as deepeval hands it out: whether the instance
    has a [__name__] attribute, and what
    [measure(tc, _show_indicator=..., _log_metric_to_confident=...)]
    does.  A successful [measure] yields the score together with the
    value that [getattr(metric, "reason", None)] has afterwards. *)
Record metric_obj := {
  dunder_name : option string;
  measure : LLMTestCase -> bool -> bool -> result (pyval F * pyval F)
}.

(** An instance together with the class it was created from. *)
Definition metric : Type := metric_class * metric_obj.

(** The deepeval library: what calling a metric class does.  For
    [AnswerRelevancyMetric] this includes the [import] statement that
    precedes the call. *)
Record deepeval := {
  construct : metric_class -> ctor_args -> result metric_obj
}.

(** External calls, in the order they are made. *)
Inductive call :=
| Construct (c : metric_class) (a : ctor_args)
| Measure (c : metric_class) (tc : LLMTestCase) (show_indicator log_metric : bool).

Definition trace := list call.

Record RagasEvaluator := {
  model : handle;
  embeddings : handle
}.

(** [RagasEvaluator.__init__] *)
Definition init (model embeddings : handle) : RagasEvaluator :=
  {| model := model; embeddings := embeddings |}.

(** One entry of the [results] dictionary:
    [{"score": score, "reason": reason}]. *)
Record entry := { score : pyval F; reason : pyval F }.

(** The returned dictionary
    [{"metrics": results, "aggregate": aggregate}]; [aggregate] is a
    float or [None]. *)
Record report := {
  metrics : gmap string entry;
  aggregate : option F
}.

Variable lib : deepeval.

(** Calling the class [c] with keyword arguments [a], recorded in the trace. *)
Definition new (c : metric_class) (a : ctor_args) : M trace metric :=
  modify (fun t => t ++ [Construct c a]) ;;;
  obj <- lift (construct lib c a) ;;
  ret (c, obj).

(** [getattr(metric, "__name__", metric.__class__.__name__)] *)
Definition metric_name (m : metric) : string :=
  match dunder_name (snd m) with
  | Some n => n
  | None => class_name (fst m)
  end.

(** [metric.measure(tc, _show_indicator=False,
    _log_metric_to_confident=False)] followed by
    [getattr(metric, "reason", None)]. *)
Definition call_measure (m : metric) (tc : LLMTestCase) : M trace (pyval F * pyval F) :=
  modify (fun t => t ++ [Measure (fst m) tc false false]) ;;;
  lift (measure (snd m) tc false false).

(** The keyword arguments of the four constructor calls. *)
Definition ragas_args (self : RagasEvaluator) : ctor_args :=
  {| kw_model := model self; kw_embeddings := Some (embeddings self);
     kw_include_reason := None; kw_async_mode := None;
     kw_track := Some false |}.

Definition relevancy_args (self : RagasEvaluator) : ctor_args :=
  {| kw_model := model self; kw_embeddings := None;
     kw_include_reason := None; kw_async_mode := Some false;
     kw_track := None |}.

Definition bias_args (self : RagasEvaluator) : ctor_args :=
  {| kw_model := model self; kw_embeddings := None;
     kw_include_reason := Some true; kw_async_mode := Some false;
     kw_track := None |}.

Definition hallucination_args (self : RagasEvaluator) : ctor_args :=
  bias_args self.

(** Lines 66-90: the list [metrics]. *)
Definition instantiate (self : RagasEvaluator) : M trace (list metric) :=
  let metrics := [] in
  metrics <-
    try_except
      (relevancy <- new RAGASAnswerRelevancyMetric (ragas_args self) ;;
       ret (metrics ++ [relevancy]))
      (fun _ =>
         try_except
           (m <- new AnswerRelevancyMetric (relevancy_args self) ;;
            ret (metrics ++ [m]))
           (fun _ => ret metrics)) ;;
  metrics <-
    try_except
      (bias <- new BiasMetric (bias_args self) ;;
       ret (metrics ++ [bias]))
      (fun _ => ret metrics) ;;
  metrics <-
    try_except
      (hall <- new HallucinationMetric (hallucination_args self) ;;
       ret (metrics ++ [hall]))
      (fun _ => ret metrics) ;;
  ret metrics.

(** Lines 96-106: the body of [for metric in metrics], acting on the
    local variables [results] and [scores]. *)
Definition score_metric (tc : LLMTestCase) (m : metric)
    (acc : gmap string entry * list F) : M trace (gmap string entry * list F) :=
  let '(results, scores) := acc in
  let name := metric_name m in
  sr <-
    try_except
      (call_measure m tc)
      (fun e => ret (PyNone, PyStr ("metric error: " +:+ exn_str e))) ;;
  let '(score, reason) := sr in
  let results := <[name := {| score := score; reason := reason |}]> results in
  if isinstance_int_float score then
    f <- lift (py_float score) ;;
    ret (results, scores ++ [f])
  else ret (results, scores).

(** Line 108 *)
Definition aggregate_of (scores : list F) : option F :=
  if truthy scores then Some (truediv_len (py_sum scores) (length scores))
  else None.

(** Lines 63-64: [context = context or []] and the test case, in
    which the same list serves as [context] and [retrieval_context]. *)
Definition test_case (input_text response_text : string)
    (context : option (list string)) : LLMTestCase :=
  let context := or_empty context in
  {| input := input_text; actual_output := response_text;
     context := context; retrieval_context := context |}.

(** Lines 92-106: the loop over [metrics] from empty [results] and
    [scores]. *)
Definition score_all (tc : LLMTestCase) (metrics : list metric)
    : M trace (gmap string entry * list F) :=
  let results : gmap string entry := ∅ in
  let scores : list F := [] in
  for_fold (score_metric tc) metrics (results, scores).

(** [RagasEvaluator.evaluate] *)
Definition evaluate (self : RagasEvaluator) (input_text response_text : string)
    (context : option (list string)) : M trace report :=
  let tc := test_case input_text response_text context in
  metrics <- instantiate self ;;
  acc <- score_all tc metrics ;;
  let '(results, scores) := acc in
  let aggregate := aggregate_of scores in
  ret {| metrics := results; aggregate := aggregate |}.

End Evaluator.

Arguments metric_obj F : clear implicits.
Arguments metric F : clear implicits.
Arguments deepeval F : clear implicits.
Arguments entry F : clear implicits.
Arguments report F : clear implicits.

End ragas_evaluator.

(** ** What [evaluate] is specified against *)

Module evaluator_spec.
Import ragas_evaluator.

Section Defs.
Context {F : Type} `{FloatOps F}.
Variable lib : deepeval F.

(** The score and reason that the loop body records for a metric:
    those of [measure], or [None] and the error text. *)
Definition recorded (tc : LLMTestCase) (m : metric F) : entry F :=
  match measure (snd m) tc false false with
  | Ok (sc, re) => {| score := sc; reason := re |}
  | Raise e => {| score := PyNone; reason := PyStr ("metric error: " +:+ exn_str e) |}
  end.

(** The spec's average: the arithmetic mean of a list of floats, and
    nothing for the empty list. *)
Definition arithmetic_mean (xs : list F) : option F :=
  match xs with
  | [] => None
  | _ :: _ => Some (truediv_len (py_sum xs) (length xs))
  end.

(** The scores among [vs] that are numbers. *)
Definition numeric (vs : list (pyval F)) : list (pyval F) :=
  List.filter isinstance_int_float vs.

(** Scoring a metric gets past the loop body: [measure] returns or
    raises an [Exception], and a numeric score converts to a float. *)
Definition completes (tc : LLMTestCase) (m : metric F) : Prop :=
  match measure (snd m) tc false false with
  | Ok (sc, _) => isinstance_int_float sc = true -> exists f, py_float sc = Ok f
  | Raise e => exn_is_Exception e = true
  end.

Definition measure_call (tc : LLMTestCase) (m : metric F) : call :=
  Measure (fst m) tc false false.

(** [results] after the loop body ran for each of [ms] in turn. *)
Definition record_all (tc : LLMTestCase) (ms : list (metric F))
    (results : gmap string (entry F)) : gmap string (entry F) :=
  fold_left (fun acc m => <[metric_name m := recorded tc m]> acc) ms results.

(** The instance a constructor call contributes, if any. *)
Definition attempt (c : metric_class) (a : ctor_args) : list (metric F) :=
  match construct lib c a with
  | Ok obj => [(c, obj)]
  | Raise _ => []
  end.

(** The RAGAS metric, else the generic one. *)
Definition relevancy_metric (self : RagasEvaluator) : list (metric F) :=
  match construct lib RAGASAnswerRelevancyMetric (ragas_args self) with
  | Ok obj => [(RAGASAnswerRelevancyMetric, obj)]
  | Raise _ => attempt AnswerRelevancyMetric (relevancy_args self)
  end.

Definition instantiated (self : RagasEvaluator) : list (metric F) :=
  relevancy_metric self
  ++ attempt BiasMetric (bias_args self)
  ++ attempt HallucinationMetric (hallucination_args self).

Definition constructor_calls (self : RagasEvaluator) : list call :=
  [Construct RAGASAnswerRelevancyMetric (ragas_args self)]
  ++ match construct lib RAGASAnswerRelevancyMetric (ragas_args self) with
     | Ok _ => []
     | Raise _ => [Construct AnswerRelevancyMetric (relevancy_args self)]
     end
  ++ [Construct BiasMetric (bias_args self);
      Construct HallucinationMetric (hallucination_args self)].

(** The keyword arguments [evaluate] uses for each class. *)
Definition args_for (self : RagasEvaluator) (c : metric_class) : ctor_args :=
  match c with
  | RAGASAnswerRelevancyMetric => ragas_args self
  | AnswerRelevancyMetric => relevancy_args self
  | BiasMetric => bias_args self
  | HallucinationMetric => hallucination_args self
  end.

(** A constructor call that is given the evaluator's model, and its
    embeddings when (and only when) the class is the RAGAS one. *)
Definition passes_model (self : RagasEvaluator) (c : call) : Prop :=
  match c with
  | Construct cls a =>
      kw_model a = model self /\
      kw_embeddings a =
        match cls with
        | RAGASAnswerRelevancyMetric => Some (embeddings self)
        | _ => None
        end
  | Measure _ _ _ _ => False
  end.

(** A [measure] call on [tc] with the indicator and the logging off. *)
Definition measures_quietly (tc : LLMTestCase) (c : call) : Prop :=
  match c with
  | Measure _ tc' show_indicator log_metric =>
      tc' = tc /\ show_indicator = false /\ log_metric = false
  | Construct _ _ => False
  end.

(** Why scoring [m] stops the loop with [e]: [measure] raised
    something that is not an [Exception], or the score is a number that
    [float] cannot convert. *)
Definition stops_scoring (tc : LLMTestCase) (m : metric F) (e : exn) : Prop :=
  (measure (snd m) tc false false = Raise e /\ exn_is_Exception e = false) \/
  (exists sc re,
     measure (snd m) tc false false = Ok (sc, re) /\
     isinstance_int_float sc = true /\
     py_float sc = Raise e /\ e = OverflowError).

End Defs.

(** *** A deepeval to run [evaluate] on, with binary64 floats *)

Section Demo.
Import binary64.

(** A deepeval in which the RAGAS metric has no [__name__] of its own
    and scores [0.8], the bias metric cannot be constructed, and the
    hallucination metric is constructed but fails when measuring. *)
Definition demo_lib : deepeval float :=
  {| construct := fun c _ =>
       match c with
       | RAGASAnswerRelevancyMetric =>
           Ok {| dunder_name := None;
                 measure := fun _ _ _ => Ok (PyFloat f0_8, PyStr "on topic") |}
       | AnswerRelevancyMetric =>
           Ok {| dunder_name := Some "Answer Relevancy";
                 measure := fun _ _ _ => Ok (PyFloat f0_5, PyNone) |}
       | BiasMetric => Raise (mk_exn true "no evaluation model")
       | HallucinationMetric =>
           Ok {| dunder_name := Some "Hallucination";
                 measure := fun _ _ _ => Raise (mk_exn true "context cannot be empty") |}
       end |}.

(** The same, except that the hallucination metric cannot be
    constructed either. *)
Definition relevancy_only_lib : deepeval float :=
  {| construct := fun c a =>
       match c with
       | HallucinationMetric => Raise (mk_exn true "no evaluation model")
       | _ => construct demo_lib c a
       end |}.

Definition demo_self : RagasEvaluator := init None None.

Definition demo_tc : LLMTestCase := test_case "What is X?" "X is a letter." None.

Definition demo_relevancy : metric float :=
  (RAGASAnswerRelevancyMetric,
   {| dunder_name := None;
      measure := fun _ _ _ => Ok (PyFloat f0_8, PyStr "on topic") |}).

Definition demo_hallucination : metric float :=
  (HallucinationMetric,
   {| dunder_name := Some "Hallucination";
      measure := fun _ _ _ => Raise (mk_exn true "context cannot be empty") |}).

Definition demo_report : report float :=
  {| metrics :=
       <["Hallucination" :=
           {| score := PyNone;
              reason := PyStr "metric error: context cannot be empty" |}]>
       (<["RAGASAnswerRelevancyMetric" :=
           {| score := PyFloat f0_8; reason := PyStr "on topic" |}]> ∅);
     aggregate := Some f0_8 |}.

Definition demo_constructor_calls : list call :=
  [Construct RAGASAnswerRelevancyMetric (ragas_args demo_self);
   Construct BiasMetric (bias_args demo_self);
   Construct HallucinationMetric (hallucination_args demo_self)].

Definition demo_trace : list call :=
  demo_constructor_calls
  ++ [Measure RAGASAnswerRelevancyMetric demo_tc false false;
      Measure HallucinationMetric demo_tc false false].

(** A deepeval in which no metric can be constructed. *)
Definition unavailable_lib : deepeval float :=
  {| construct := fun _ _ => Raise (mk_exn true "no evaluation model") |}.

Definition demo_bias_interrupted : metric float :=
  (BiasMetric,
   {| dunder_name := Some "Bias";
      measure := fun _ _ _ => Raise (mk_exn false "KeyboardInterrupt") |}).

Definition demo_bias_huge : metric float :=
  (BiasMetric,
   {| dunder_name := Some "Bias";
      measure := fun _ _ _ => Ok (PyInt (2 ^ 1024), PyNone) |}).

Definition demo_hallucination_half : metric float :=
  (HallucinationMetric,
   {| dunder_name := Some "Hallucination";
      measure := fun _ _ _ => Ok (PyFloat f0_5, PyNone) |}).

(** A deepeval with the three metrics, in which measuring the bias
    metric is interrupted from the keyboard. *)
Definition interrupted_lib : deepeval float :=
  {| construct := fun c _ =>
       match c with
       | BiasMetric => Ok (snd demo_bias_interrupted)
       | HallucinationMetric => Ok (snd demo_hallucination_half)
       | _ => Ok (snd demo_relevancy)
       end |}.

(** A deepeval with the three metrics, in which the bias metric
    returns the integer [2 ** 1024] as its score. *)
Definition huge_score_lib : deepeval float :=
  {| construct := fun c _ =>
       match c with
       | BiasMetric => Ok (snd demo_bias_huge)
       | HallucinationMetric => Ok (snd demo_hallucination_half)
       | _ => Ok (snd demo_relevancy)
       end |}.

End Demo.

End evaluator_spec.

(** ** doc_loader.py *)

Module doc_loader.

Record Document := {
  page_content : string;
  metadata : list (string * string)
}.

(** A loader instance as langchain hands it out: what [print] shows for
    it and what [load()] does. *)
Record loader_obj := {
  loader_repr : string;
  load : result (list Document)
}.

(** The langchain loaders: what calling each class does.
    [WebBaseLoader] takes [web_path], [requests_per_second] and
    [trust_env]. *)
Record langchain := {
  PyPDFLoader : string -> result loader_obj;
  UnstructuredExcelLoader : string -> result loader_obj;
  WebBaseLoader : string -> Z -> bool -> result loader_obj
}.

(** External calls, in the order they are made. *)
Inductive loader_call :=
| NewPyPDFLoader (file_path : string)
| NewUnstructuredExcelLoader (file_path : string)
| NewWebBaseLoader (web_path : string) (requests_per_second : Z) (trust_env : bool)
| CallLoad (source : string).

(** An argument of [print]. *)
Inductive printed :=
| PText (s : string)
| PStrList (l : list string)
| PLoader (repr : string)
| PDocs (l : list Document).

(** The state of the process as far as the module is concerned: the
    module-level list [docs], what was printed (one element per [print]
    call), and the external calls made so far. *)
Record state := {
  docs : list Document;
  stdout : list (list printed);
  calls : list loader_call
}.

(** The attributes of an instance. *)
Record document_loader := {
  rag_files : list string;
  rag_links : list string
}.

Definition print (args : list printed) : M state unit :=
  modify (fun s => {| docs := docs s; stdout := stdout s ++ [args]; calls := calls s |}).

Definition record (c : loader_call) : M state unit :=
  modify (fun s => {| docs := docs s; stdout := stdout s; calls := calls s ++ [c] |}).

(** [docs.extend(l)] on the module-level list *)
Definition docs_extend (l : list Document) : M state unit :=
  modify (fun s => {| docs := docs s ++ l; stdout := stdout s; calls := calls s |}).

(** [docs = []] at module level *)
Definition docs_bind_empty : M state unit :=
  modify (fun s => {| docs := []; stdout := stdout s; calls := calls s |}).

Section Loader.
Variable lib : langchain.

(** [loader.load()] for the loader made for [source] *)
Definition call_load (source : string) (loader : loader_obj) : M state (list Document) :=
  record (CallLoad source) ;;; lift (load loader).

(** Lines 27-32: the body of [for file_path in self.rag_files]. *)
Definition load_file (file_path : string) : M state unit :=
  if endswith (lower file_path) ".pdf" then
    loader <- (record (NewPyPDFLoader file_path) ;;; lift (PyPDFLoader lib file_path)) ;;
    l <- call_load file_path loader ;;
    docs_extend l
  else if endswith (lower file_path) ".xls" || endswith (lower file_path) ".xlsx" then
    loader <- (record (NewUnstructuredExcelLoader file_path) ;;;
               lift (UnstructuredExcelLoader lib file_path)) ;;
    l <- call_load file_path loader ;;
    docs_extend l
  else ret tt.

(** Lines 35-45: the body of [for link in self.rag_links]. *)
Definition load_link (link : string) : M state unit :=
  loader <- (record (NewWebBaseLoader link 1 true) ;;;
             lift (WebBaseLoader lib link 1 true)) ;;
  print [PText "*"; PLoader (loader_repr loader)] ;;;
  try_except
    (l <- call_load link loader ;;
     docs_extend l)
    (fun e => print [PText ("Failed to load " +:+ link +:+ ": " +:+ exn_str e)]).

(** [document_loader._build_vectorstore]; the value returned is the
    module-level list itself. *)
Definition _build_vectorstore (self : document_loader) : M state (list Document) :=
  for_each load_file (rag_files self) ;;;
  for_each load_link (rag_links self) ;;;
  s <- get ;;
  print [PDocs (docs s)] ;;;
  s <- get ;;
  ret (docs s).

(** [document_loader.__init__]: the result is the new instance. *)
Definition __init__ (rag_files rag_links : option (list string)) : M state document_loader :=
  let self := {| rag_files := or_empty rag_files; rag_links := or_empty rag_links |} in
  if truthy (doc_loader.rag_files self) || truthy (doc_loader.rag_links self) then
    print [PStrList (doc_loader.rag_files self); PStrList (doc_loader.rag_links self)] ;;;
    _build_vectorstore self ;;;
    ret self
  else ret self.

(** The one URL of the module-level call. *)
Definition guide_url : string :=
  "https://deepeval.com/guides/guides-ai-agent-evaluation".

(** Executing the module (what [import doc_loader] does the first
    time): lines 14, 49 and 50. *)
Definition import_module : M state unit :=
  docs_bind_empty ;;;
  __init__ None (Some [guide_url]) ;;;
  s <- get ;;
  print [PDocs (docs s)].

End Loader.

End doc_loader.

(** ** What [document_loader] is specified against *)

Module loader_spec.
Import doc_loader.

(** The state after [d] was appended to [docs], [o] was printed and the
    calls [c] were made. *)
Definition extend (s : state) (d : list Document) (o : list (list printed))
    (c : list loader_call) : state :=
  {| docs := docs s ++ d; stdout := stdout s ++ o; calls := calls s ++ c |}.

(** A computation whose outcome, appended documents and external calls
    do not depend on the state it starts from (what it prints may). *)
Definition steady {A} (c : M state A) : Prop :=
  exists r d cs, forall s, exists o, c s = (r, extend s d o cs).

(** The spec's "ends (case-insensitively) in [ext]", for a lower-case
    [ext]. *)
Definition ends_with_ignoring_case (path ext : string) : Prop :=
  exists pre suf, path = pre +:+ suf /\ lower suf = ext.

Definition unsupported (path : string) : Prop :=
  ~ ends_with_ignoring_case path ".pdf" /\
  ~ ends_with_ignoring_case path ".xls" /\
  ~ ends_with_ignoring_case path ".xlsx".

Section Defs.
Variable lib : langchain.

(** What handling one file path comes to: the documents of its loader,
    or what the loader raised; nothing for an unsupported extension. *)
Definition file_result (file_path : string) : result (list Document) :=
  if endswith (lower file_path) ".pdf" then
    match PyPDFLoader lib file_path with
    | Ok loader => load loader
    | Raise e => Raise e
    end
  else if endswith (lower file_path) ".xls" || endswith (lower file_path) ".xlsx" then
    match UnstructuredExcelLoader lib file_path with
    | Ok loader => load loader
    | Raise e => Raise e
    end
  else Ok [].

Definition file_docs (file_path : string) : list Document :=
  match file_result file_path with
  | Ok l => l
  | Raise _ => []
  end.

(** The external calls made for one file path. *)
Definition file_calls (file_path : string) : list loader_call :=
  if endswith (lower file_path) ".pdf" then
    NewPyPDFLoader file_path ::
    match PyPDFLoader lib file_path with
    | Ok _ => [CallLoad file_path]
    | Raise _ => []
    end
  else if endswith (lower file_path) ".xls" || endswith (lower file_path) ".xlsx" then
    NewUnstructuredExcelLoader file_path ::
    match UnstructuredExcelLoader lib file_path with
    | Ok _ => [CallLoad file_path]
    | Raise _ => []
    end
  else [].

(** A link whose loader can be constructed and whose [load] returns or
    raises an [Exception]. *)
Definition loads_or_fails (link : string) : Prop :=
  exists loader, WebBaseLoader lib link 1 true = Ok loader /\ catchable (load loader).

(** The documents a link contributes: those of a successful [load]. *)
Definition link_docs (link : string) : list Document :=
  match WebBaseLoader lib link 1 true with
  | Ok loader => match load loader with Ok l => l | Raise _ => [] end
  | Raise _ => []
  end.

Definition link_calls (link : string) : list loader_call :=
  [NewWebBaseLoader link 1 true; CallLoad link].

(** The line printed when loading [link] raised [e]. *)
Definition failure_message (link : string) (e : exn) : list printed :=
  [PText ("Failed to load " +:+ link +:+ ": " +:+ exn_str e)].

(** [load] of the loader for [link] raises [e]. *)
Definition link_fails (link : string) (e : exn) : Prop :=
  exists loader, WebBaseLoader lib link 1 true = Ok loader /\ load loader = Raise e.

(** The lines printed for one link: the loader, then the failure when
    [load] raised. *)
Definition link_output (link : string) : list (list printed) :=
  match WebBaseLoader lib link 1 true with
  | Ok loader =>
      [PText "*"; PLoader (loader_repr loader)]
        :: match load loader with
           | Ok _ => []
           | Raise e => [failure_message link e]
           end
  | Raise _ => []
  end.

(** The documents the loop over the links appends: those of every
    link that loads, up to the first link whose constructor raises or
    whose [load] raises something that is not an [Exception]. *)
Fixpoint links_collected (links : list string) : list Document :=
  match links with
  | [] => []
  | link :: rest =>
      match WebBaseLoader lib link 1 true with
      | Raise _ => []
      | Ok loader =>
          match load loader with
          | Ok l => l ++ links_collected rest
          | Raise e => if exn_is_Exception e then links_collected rest else []
          end
      end
  end.

(** The documents a construction appends: those of the files, up to
    the first file whose loader raises, and then, if none did, those of
    the links. *)
Fixpoint collected (files links : list string) : list Document :=
  match files with
  | [] => links_collected links
  | file_path :: rest =>
      match file_result file_path with
      | Ok l => l ++ collected rest links
      | Raise _ => []
      end
  end.

End Defs.

(** *** A langchain to run the loader on *)

Definition page (source : string) : Document :=
  {| page_content := "text of " +:+ source; metadata := [("source", source)] |}.

(** A langchain in which PDF files load, spreadsheets are rejected by
    their loader, and every page loads except the one at
    [https://bad.example]. *)
Definition demo_langchain : langchain :=
  {| PyPDFLoader := fun p =>
       Ok {| loader_repr := "<PyPDFLoader>"; load := Ok [page p] |};
     UnstructuredExcelLoader := fun p =>
       Ok {| loader_repr := "<UnstructuredExcelLoader>";
             load := Raise (mk_exn true "not a workbook") |};
     WebBaseLoader := fun link _ _ =>
       Ok {| loader_repr := "<WebBaseLoader>";
             load := if String.eqb link "https://bad.example"
                     then Raise (mk_exn true "404 Not Found")
                     else Ok [page link] |} |}.

Definition fresh : state := {| docs := []; stdout := []; calls := [] |}.

(** The same langchain, except that [WebBaseLoader] cannot be
    constructed for [ftp://files.example], and loading
    [https://slow.example] is interrupted from the keyboard. *)
Definition strict_langchain : langchain :=
  {| PyPDFLoader := PyPDFLoader demo_langchain;
     UnstructuredExcelLoader := UnstructuredExcelLoader demo_langchain;
     WebBaseLoader := fun link rps trust =>
       if String.eqb link "ftp://files.example"
       then Raise (mk_exn true "No connection adapters were found")
       else if String.eqb link "https://slow.example"
       then Ok {| loader_repr := "<WebBaseLoader>";
                  load := Raise (mk_exn false "KeyboardInterrupt") |}
       else WebBaseLoader demo_langchain link rps trust |}.

End loader_spec.

(** * Properties *)

(** ** Loops *)

Lemma for_fold_app {S A L} (body : A -> L -> M S L) (l1 l2 : list A) (acc : L) (s : S) :
  for_fold body (l1 ++ l2) acc s =
  match for_fold body l1 acc s with
  | (Ok acc', s') => for_fold body l2 acc' s'
  | (Raise e, s') => (Raise e, s')
  end.
Proof.
  revert acc s. induction l1 as [|x l1 IH]; intros acc s; simpl.
  - reflexivity.
  - unfold bind. destruct (body x acc s) as [[acc'|e] s']; [apply IH | reflexivity].
Qed.

Lemma for_each_app {S A} (body : A -> M S unit) (l1 l2 : list A) (s : S) :
  for_each body (l1 ++ l2) s =
  match for_each body l1 s with
  | (Ok _, s') => for_each body l2 s'
  | (Raise e, s') => (Raise e, s')
  end.
Proof.
  revert s. induction l1 as [|x l1 IH]; intros s; simpl.
  - reflexivity.
  - unfold bind. destruct (body x s) as [[[]|e] s']; [apply IH | reflexivity].
Qed.

Lemma append_cons (c : ascii) (s1 s2 : string) :
  String c s1 +:+ s2 = String c (s1 +:+ s2).
Proof. reflexivity. Qed.

Lemma append_empty_r (s : string) : s +:+ "" = s.
Proof.
  induction s as [|c s IH]; [reflexivity|]. by rewrite append_cons, IH.
Qed.

Lemma append_assoc (a b c : string) : (a +:+ b) +:+ c = a +:+ (b +:+ c).
Proof.
  induction a as [|x a IH]; [reflexivity|]. by rewrite !append_cons, IH.
Qed.

(** ** Suffixes *)

Lemma endswith_unfold (s suffix : string) :
  endswith s suffix =
  if String.eqb s suffix then true
  else match s with
       | EmptyString => false
       | String _ s' => endswith s' suffix
       end.
Proof. by destruct s. Qed.

Lemma endswith_spec (s suffix : string) :
  endswith s suffix = true <-> exists pre, s = pre +:+ suffix.
Proof.
  induction s as [|c s IH]; rewrite endswith_unfold.
  - destruct (String.eqb_spec "" suffix) as [<-|Hne].
    + split; [by exists ""|done].
    + split; [done|]. intros [[|c pre] Hpre]; [by destruct Hne|discriminate].
  - destruct (String.eqb_spec (String c s) suffix) as [<-|Hne].
    + split; [by exists ""|done].
    + rewrite IH. split.
      * intros [pre ->]. by exists (String c pre).
      * intros [[|c' pre] Hpre]; [by destruct Hne|].
        rewrite append_cons in Hpre. injection Hpre as _ ->. by exists pre.
Qed.

Lemma lower_app (a b : string) : lower (a +:+ b) = lower a +:+ lower b.
Proof.
  induction a as [|c a IH]; [reflexivity|].
  rewrite !append_cons. simpl. by rewrite IH, append_cons.
Qed.

Lemma lower_split (p a b : string) :
  lower p = a +:+ b -> exists a' b', p = a' +:+ b' /\ lower a' = a /\ lower b' = b.
Proof.
  revert p. induction a as [|c a IH]; intros p Hp.
  - by exists "", p.
  - destruct p as [|x p]; [discriminate|].
    rewrite append_cons in Hp. simpl in Hp. injection Hp as Hx Hp.
    apply IH in Hp as (a' & b' & -> & <- & <-).
    exists (String x a'), b'. by rewrite append_cons; simpl; rewrite Hx.
Qed.

(** ** The evaluation adapter *)

Module evaluator_facts.
Import ragas_evaluator evaluator_spec.

Section Facts.
Context {F : Type} `{FloatOps F}.
Variable lib : deepeval F.

Lemma score_metric_Ok tc m results scores t results' scores' t' :
  score_metric tc m (results, scores) t = (Ok (results', scores'), t') ->
  results' = <[metric_name m := recorded tc m]> results /\
  t' = t ++ [measure_call tc m] /\
  exists xs, scores' = scores ++ xs /\
    Forall2 (fun v x => py_float v = Ok x) (numeric [score (recorded tc m)]) xs.
Proof.
  unfold score_metric, recorded, call_measure, try_except, bind, modify, lift, ret,
    numeric, measure_call.
  destruct (measure (snd m) tc false false) as [[sc re]|e]; simpl.
  - destruct (isinstance_int_float sc) eqn:Hnum.
    + destruct (py_float sc) as [f|e] eqn:Hf; [|discriminate].
      intros [= <- <- <-]. repeat split. exists [f]. split; [reflexivity|].
      constructor; [assumption | constructor].
    + intros [= <- <- <-]. repeat split. exists []. rewrite app_nil_r. split; constructor.
  - destruct (exn_is_Exception e); [|discriminate]. simpl.
    intros [= <- <- <-]. repeat split. exists []. rewrite app_nil_r. split; constructor.
Qed.

Lemma numeric_app (vs ws : list (pyval F)) : numeric (vs ++ ws) = numeric vs ++ numeric ws.
Proof. apply List.filter_app. Qed.

Lemma score_loop_Ok tc ms results scores t results' scores' t' :
  for_fold (score_metric tc) ms (results, scores) t = (Ok (results', scores'), t') ->
  results' = record_all tc ms results /\
  t' = t ++ map (measure_call tc) ms /\
  exists xs, scores' = scores ++ xs /\
    Forall2 (fun v x => py_float v = Ok x)
      (numeric (map (fun m => score (recorded tc m)) ms)) xs.
Proof.
  revert results scores t.
  induction ms as [|m ms IH]; intros results scores t; cbn [for_fold map].
  - intros [= <- <- <-]. rewrite !app_nil_r. repeat split.
    exists []. rewrite app_nil_r. split; constructor.
  - unfold bind.
    destruct (score_metric tc m (results, scores) t) as [[[r1 s1]|e] t1] eqn:Hm;
      [|discriminate].
    apply score_metric_Ok in Hm as (-> & -> & xs & -> & Hxs).
    intros Hl. apply IH in Hl as (-> & -> & ys & -> & Hys).
    split; [reflexivity|]. split; [by rewrite <- app_assoc|].
    exists (xs ++ ys). split; [by rewrite app_assoc|].
    change (?a :: ?l) with ([a] ++ l) at 1. rewrite numeric_app.
    by apply Forall2_app.
Qed.

Lemma score_metric_completes tc m acc t :
  completes tc m ->
  exists acc', score_metric tc m acc t = (Ok acc', t ++ [measure_call tc m]).
Proof.
  destruct acc as [results scores].
  unfold completes, score_metric, call_measure, try_except, bind, modify, lift, ret,
    measure_call.
  destruct (measure (snd m) tc false false) as [[sc re]|e]; simpl.
  - intros Hc. destruct (isinstance_int_float sc).
    + destruct Hc as [f ->]; [reflexivity|]. eauto.
    + eauto.
  - intros ->. simpl. eauto.
Qed.

Lemma score_loop_completes tc ms acc t :
  Forall (completes tc) ms ->
  exists acc', for_fold (score_metric tc) ms acc t = (Ok acc', t ++ map (measure_call tc) ms).
Proof.
  intros Hall. revert acc t.
  induction Hall as [|m ms Hm _ IH]; intros acc t; cbn [for_fold map].
  - exists acc. by rewrite app_nil_r.
  - unfold bind. destruct (score_metric_completes tc m acc t Hm) as [acc1 ->].
    destruct (IH acc1 (t ++ [measure_call tc m])) as [acc2 ->].
    exists acc2. by rewrite <- app_assoc.
Qed.

(** *** The dictionary [results] *)

Lemma record_all_app tc (ms1 ms2 : list (metric F)) results :
  record_all tc (ms1 ++ ms2) results = record_all tc ms2 (record_all tc ms1 results).
Proof. apply fold_left_app. Qed.

Lemma record_all_lookup_agree tc ms (r1 r2 : gmap string (entry F)) n :
  r1 !! n = r2 !! n -> record_all tc ms r1 !! n = record_all tc ms r2 !! n.
Proof.
  revert r1 r2. induction ms as [|m ms IH]; intros r1 r2 Hn; simpl; [assumption|].
  apply IH. rewrite !lookup_insert. by case_decide.
Qed.

Lemma record_all_lookup_other tc ms (results : gmap string (entry F)) n :
  ~ In n (map metric_name ms) -> record_all tc ms results !! n = results !! n.
Proof.
  revert results. induction ms as [|m ms IH]; intros results Hn; simpl; [reflexivity|].
  rewrite IH by (intros Hin; apply Hn; by right).
  apply lookup_insert_ne. intros Heq. apply Hn. by left.
Qed.

Lemma record_all_lookup_last tc pre m post (results : gmap string (entry F)) :
  ~ In (metric_name m) (map metric_name post) ->
  record_all tc (pre ++ m :: post) results !! metric_name m = Some (recorded tc m).
Proof.
  intros Hpost. rewrite record_all_app. simpl.
  rewrite record_all_lookup_other by assumption. apply lookup_insert_eq.
Qed.

Lemma record_all_lookup_skip tc pre m post (results : gmap string (entry F)) n :
  n <> metric_name m ->
  record_all tc (pre ++ m :: post) results !! n = record_all tc (pre ++ post) results !! n.
Proof.
  intros Hn. rewrite !record_all_app. simpl.
  apply record_all_lookup_agree. by apply lookup_insert_ne.
Qed.

Lemma record_all_lookup_NoDup tc ms (results : gmap string (entry F)) m :
  NoDup (map metric_name ms) -> In m ms ->
  record_all tc ms results !! metric_name m = Some (recorded tc m).
Proof.
  intros Hnd Hin. apply in_split in Hin as (pre & post & ->).
  apply record_all_lookup_last.
  rewrite map_app in Hnd. simpl in Hnd.
  apply NoDup_app in Hnd as (_ & _ & Hnd). apply NoDup_cons in Hnd as [Hnd _].
  intros Hin. apply Hnd. by apply list_elem_of_In.
Qed.

Lemma record_all_dom tc ms (results : gmap string (entry F)) :
  dom (record_all tc ms results) = list_to_set (map metric_name ms) ∪ dom results.
Proof.
  revert results. induction ms as [|m ms IH]; intros results; simpl.
  - by rewrite (left_id_L ∅ (∪)).
  - rewrite IH, dom_insert_L.
    apply set_eq. intros x. rewrite !elem_of_union. tauto.
Qed.

(** *** The list [metrics] *)

Lemma instantiate_eq self t :
  catchable (construct lib RAGASAnswerRelevancyMetric (ragas_args self)) ->
  (forall e, construct lib RAGASAnswerRelevancyMetric (ragas_args self) = Raise e ->
             catchable (construct lib AnswerRelevancyMetric (relevancy_args self))) ->
  catchable (construct lib BiasMetric (bias_args self)) ->
  catchable (construct lib HallucinationMetric (hallucination_args self)) ->
  instantiate lib self t = (Ok (instantiated lib self), t ++ constructor_calls lib self).
Proof.
  unfold instantiate, instantiated, relevancy_metric, attempt, constructor_calls,
    new, try_except, bind, modify, lift, ret, catchable.
  intros Hr Hg Hb Hh.
  destruct (construct lib RAGASAnswerRelevancyMetric (ragas_args self)) as [o1|e1].
  - clear Hg.
    destruct (construct lib BiasMetric (bias_args self)) as [o2|e2];
      [|rewrite Hb];
      (destruct (construct lib HallucinationMetric (hallucination_args self))
         as [o3|e3]; [|rewrite Hh]);
      simpl; rewrite <- ?app_assoc; reflexivity.
  - rewrite Hr. specialize (Hg e1 eq_refl).
    destruct (construct lib AnswerRelevancyMetric (relevancy_args self)) as [o0|e0];
      [|rewrite Hg];
      (destruct (construct lib BiasMetric (bias_args self)) as [o2|e2];
         [|rewrite Hb]);
      (destruct (construct lib HallucinationMetric (hallucination_args self))
         as [o3|e3]; [|rewrite Hh]);
      simpl; rewrite <- ?app_assoc; reflexivity.
Qed.

(** [evaluate] in terms of its two phases. *)
Lemma evaluate_Ok self input_text response_text context t rep t' :
  evaluate lib self input_text response_text context t = (Ok rep, t') ->
  exists ms t1 scores,
    instantiate lib self t = (Ok ms, t1) /\
    score_all (test_case input_text response_text context) ms t1
      = (Ok (metrics rep, scores), t') /\
    aggregate rep = aggregate_of scores.
Proof.
  unfold evaluate, bind, ret.
  destruct (instantiate lib self t) as [[ms|e] t1]; [|discriminate].
  destruct (score_all _ ms t1) as [[[results scores]|e] t2] eqn:Hs; [|discriminate].
  intros [= <- <-]. exists ms, t1, scores. auto.
Qed.

Lemma aggregate_of_eq (scores : list F) : aggregate_of scores = arithmetic_mean scores.
Proof. by destruct scores. Qed.

Lemma py_float_all_functional (vs : list (pyval F)) (xs ys : list F) :
  Forall2 (fun v x => py_float v = Ok x) vs xs ->
  Forall2 (fun v x => py_float v = Ok x) vs ys ->
  xs = ys.
Proof.
  intros Hx. revert ys. induction Hx as [|v x vs xs Hv _ IH]; intros ys Hy.
  - by inversion Hy.
  - inversion Hy as [|v' y vs' ys' Hv' Hys]; subst.
    f_equal; [congruence | by apply IH].
Qed.

Lemma raising_metric_completes tc (m : metric F) e :
  measure (snd m) tc false false = Raise e -> exn_is_Exception e = true ->
  completes tc m.
Proof. unfold completes. by intros ->. Qed.

Lemma raising_metric_recorded tc (m : metric F) e :
  measure (snd m) tc false false = Raise e ->
  recorded tc m = {| score := PyNone; reason := PyStr ("metric error: " +:+ exn_str e) |}.
Proof. unfold recorded. by intros ->. Qed.

(** *** The claims about [evaluate] *)

(** C1.  Whenever [evaluate] returns, its [aggregate] is the
    arithmetic mean of the numeric scores among the scores recorded
    for the instantiated metrics (a score counts when it is an [int]
    or a [float]; [None] does not), and [None] when there is no such
    score.  The recorded scores are the ones in the returned mapping:
    with pairwise distinct metric names, each metric's entry is found
    under its name. *)
Theorem aggregate_is_mean_of_numeric_scores
    self input_text response_text context t rep t' :
  evaluate lib self input_text response_text context t = (Ok rep, t') ->
  let tc := test_case input_text response_text context in
  exists (ms : list (metric F)) (xs : list F),
    fst (instantiate lib self t) = Ok ms /\
    metrics rep = record_all tc ms ∅ /\
    (NoDup (map metric_name ms) ->
     forall m, In m ms -> metrics rep !! metric_name m = Some (recorded tc m)) /\
    Forall2 (fun v x => py_float v = Ok x)
      (numeric (map (fun m => score (recorded tc m)) ms)) xs /\
    aggregate rep = arithmetic_mean xs /\
    (numeric (map (fun m => score (recorded tc m)) ms) = [] -> aggregate rep = None).
Proof.
  intros Hev tc.
  apply evaluate_Ok in Hev as (ms & t1 & scores & Hi & Hs & Hagg).
  apply score_loop_Ok in Hs as (Hres & _ & xs & -> & Hxs).
  exists ms, xs. rewrite Hi, Hres, Hagg, aggregate_of_eq. simpl.
  repeat split; try assumption.
  - intros Hnd m Hin. by apply record_all_lookup_NoDup.
  - intros Hnone. fold tc in Hxs. rewrite Hnone in Hxs. by inversion Hxs.
Qed.

(** C2.  When the [measure] call of an instantiated metric raises an
    [Exception], [evaluate] still returns (given that no other metric
    stops it); the metric's entry has the score [None] and as reason a
    non-empty string that contains the error text (given that no later
    metric uses the same name); and every other entry, and the
    aggregate, are what scoring the other metrics alone gives. *)
Theorem scoring_exception_is_recorded
    self input_text response_text context t pre m post t1 e :
  let tc := test_case input_text response_text context in
  instantiate lib self t = (Ok (pre ++ m :: post), t1) ->
  measure (snd m) tc false false = Raise e ->
  exn_is_Exception e = true ->
  ~ In (metric_name m) (map metric_name post) ->
  Forall (completes tc) (pre ++ post) ->
  exists rep t',
    evaluate lib self input_text response_text context t = (Ok rep, t') /\
    (exists text,
       metrics rep !! metric_name m = Some {| score := PyNone; reason := PyStr text |} /\
       text <> "" /\
       exists a b, text = a +:+ exn_str e +:+ b) /\
    (exists results scores t3,
       score_all tc (pre ++ post) t1 = (Ok (results, scores), t3) /\
       (forall n, n <> metric_name m -> metrics rep !! n = results !! n) /\
       aggregate rep = aggregate_of scores).
Proof.
  intros tc Hi Hm He Hpost Hothers.
  assert (Hall : Forall (completes tc) (pre ++ m :: post)).
  { apply Forall_app in Hothers as [Hpre Hpo]. apply Forall_app. split; [assumption|].
    constructor; [by eapply raising_metric_completes | assumption]. }
  destruct (score_loop_completes tc _ (∅, []) t1 Hall) as [[results scores] Hrun].
  destruct (score_loop_completes tc _ (∅, []) t1 Hothers) as [[results0 scores0] Hrun0].
  exists {| metrics := results; aggregate := aggregate_of scores |}. eexists.
  split.
  { unfold evaluate, bind, ret. rewrite Hi. fold tc. unfold score_all.
    rewrite Hrun. reflexivity. }
  pose proof Hrun as Hrun'. pose proof Hrun0 as Hrun0'.
  apply score_loop_Ok in Hrun' as (-> & _ & xs & -> & Hxs).
  apply score_loop_Ok in Hrun0' as (-> & _ & ys & -> & Hys).
  simpl. split.
  - exists ("metric error: " +:+ exn_str e). split; [|split].
    + rewrite <- (raising_metric_recorded tc m e Hm).
      by apply record_all_lookup_last.
    + discriminate.
    + exists "metric error: ", "". by rewrite append_empty_r.
  - exists (record_all tc (pre ++ post) ∅), ys. eexists. split; [exact Hrun0|]. split.
    + intros n Hn. by apply record_all_lookup_skip.
    + f_equal. eapply py_float_all_functional; [exact Hxs|].
      rewrite map_app in *. simpl.
      rewrite (raising_metric_recorded tc m e Hm). simpl.
      rewrite numeric_app in *. exact Hys.
Qed.

(** C3.  Calling [evaluate] without a context and calling it with the
    empty list are the same computation: same result and same
    external calls, from every starting point. *)
Theorem evaluate_context_None_is_empty self input_text response_text :
  evaluate lib self input_text response_text None =
  evaluate lib self input_text response_text (Some []).
Proof. reflexivity. Qed.

(** C9.  With constructors that fail only by raising an [Exception],
    the constructor calls are made in the order RAGAS relevancy,
    generic relevancy (only when the RAGAS call raised), bias,
    hallucination; [metrics] holds the instances of the calls that
    returned, in that order, a raising call leaving no other trace;
    and when scoring runs through, every instance in [metrics] is
    measured, in that order, and has an entry in the result. *)
Theorem metrics_instantiated_in_order self input_text response_text context t :
  (forall c a, catchable (construct lib c a)) ->
  let tc := test_case input_text response_text context in
  instantiate lib self t = (Ok (instantiated lib self), t ++ constructor_calls lib self) /\
  (Forall (completes tc) (instantiated lib self) ->
   exists rep,
     evaluate lib self input_text response_text context t =
       (Ok rep, t ++ constructor_calls lib self ++ map (measure_call tc) (instantiated lib self)) /\
     dom (metrics rep) = list_to_set (map metric_name (instantiated lib self))).
Proof.
  intros Hc tc.
  assert (Hi : instantiate lib self t
               = (Ok (instantiated lib self), t ++ constructor_calls lib self))
    by (apply instantiate_eq; auto).
  split; [exact Hi|]. intros Hall.
  destruct (score_loop_completes tc _ (∅, []) (t ++ constructor_calls lib self) Hall)
    as [[results scores] Hrun].
  exists {| metrics := results; aggregate := aggregate_of scores |}. split.
  - unfold evaluate, bind, ret. rewrite Hi. fold tc. unfold score_all.
    rewrite Hrun. by rewrite <- app_assoc.
  - apply score_loop_Ok in Hrun as (-> & _). simpl.
    rewrite record_all_dom, dom_empty_L. by rewrite (right_id_L ∅ (∪)).
Qed.

End Facts.

(** *** A run on binary64 floats *)

Section Binary64.
Import binary64.

Example demo_evaluate :
  evaluate demo_lib demo_self "What is X?" "X is a letter." None [] =
  (Ok demo_report, demo_trace).
Proof. vm_compute. reflexivity. Qed.

Example demo_instantiate :
  instantiate demo_lib demo_self [] =
  (Ok ([] ++ demo_relevancy :: [demo_hallucination]), demo_constructor_calls).
Proof. reflexivity. Qed.

Lemma aggregate_is_mean_of_numeric_scores_witness :
  evaluate demo_lib demo_self "What is X?" "X is a letter." None [] =
    (Ok demo_report, demo_trace) /\
  exists ms xs,
    fst (instantiate demo_lib demo_self []) = Ok ms /\
    metrics demo_report = record_all demo_tc ms ∅ /\
    (NoDup (map metric_name ms) ->
     forall m, In m ms -> metrics demo_report !! metric_name m = Some (recorded demo_tc m)) /\
    Forall2 (fun v x => py_float v = Ok x)
      (numeric (map (fun m => score (recorded demo_tc m)) ms)) xs /\
    aggregate demo_report = arithmetic_mean xs /\
    (numeric (map (fun m => score (recorded demo_tc m)) ms) = [] ->
     aggregate demo_report = None).
Proof.
  split; [vm_compute; reflexivity|].
  apply (aggregate_is_mean_of_numeric_scores demo_lib demo_self
           "What is X?" "X is a letter." None [] demo_report demo_trace).
  vm_compute. reflexivity.
Defined.

Lemma scoring_exception_is_recorded_witness :
  exists rep t',
    evaluate demo_lib demo_self "What is X?" "X is a letter." None [] = (Ok rep, t') /\
    (exists text,
       metrics rep !! "Hallucination" = Some {| score := PyNone; reason := PyStr text |} /\
       text <> "" /\
       exists a b, text = a +:+ "context cannot be empty" +:+ b) /\
    (exists results scores t3,
       score_all demo_tc ([] ++ [demo_relevancy]) demo_constructor_calls
         = (Ok (results, scores), t3) /\
       (forall n, n <> "Hallucination" -> metrics rep !! n = results !! n) /\
       aggregate rep = aggregate_of scores).
Proof.
  apply (scoring_exception_is_recorded demo_lib demo_self
           "What is X?" "X is a letter." None []
           [demo_relevancy] demo_hallucination [] demo_constructor_calls
           (mk_exn true "context cannot be empty")).
  - reflexivity.
  - reflexivity.
  - reflexivity.
  - simpl. tauto.
  - repeat constructor. simpl. intros _. exists f0_8. reflexivity.
Defined.

Lemma metrics_instantiated_in_order_witness :
  instantiate demo_lib demo_self [] =
    (Ok (instantiated demo_lib demo_self), [] ++ constructor_calls demo_lib demo_self) /\
  (Forall (completes demo_tc) (instantiated demo_lib demo_self) ->
   exists rep,
     evaluate demo_lib demo_self "What is X?" "X is a letter." None [] =
       (Ok rep, [] ++ constructor_calls demo_lib demo_self
                ++ map (measure_call demo_tc) (instantiated demo_lib demo_self)) /\
     dom (metrics rep) = list_to_set (map metric_name (instantiated demo_lib demo_self))).
Proof.
  apply (metrics_instantiated_in_order demo_lib demo_self
           "What is X?" "X is a letter." None []).
  intros c a. destruct c; simpl; reflexivity || exact I.
Defined.

(** C10 (as amended).  Without a context, with a relevancy metric
    (RAGAS, or the generic one after the RAGAS constructor raised) that
    scores [0.8] and bias and hallucination constructors that raise an
    [Exception], [evaluate] returns one entry, filed under the name of
    the relevancy metric (its [__name__], else its class name), and the
    aggregate [0.8]. *)
Theorem relevancy_only_report
    (lib : deepeval float) self input_text response_text t m why e_bias e_hall :
  let tc := test_case input_text response_text None in
  catchable (construct lib RAGASAnswerRelevancyMetric (ragas_args self)) ->
  relevancy_metric lib self = [m] ->
  measure (snd m) tc false false = Ok (PyFloat f0_8, why) ->
  construct lib BiasMetric (bias_args self) = Raise e_bias ->
  exn_is_Exception e_bias = true ->
  construct lib HallucinationMetric (hallucination_args self) = Raise e_hall ->
  exn_is_Exception e_hall = true ->
  exists t',
    evaluate lib self input_text response_text None t =
    (Ok {| metrics := {[ metric_name m := {| score := PyFloat f0_8; reason := why |} ]};
           aggregate := Some f0_8 |}, t').
Proof.
  intros tc Hr Hm Hmeasure Hb Hb' Hh Hh'.
  assert (Hi : instantiate lib self t = (Ok [m], t ++ constructor_calls lib self)).
  { rewrite (instantiate_eq lib self t).
    - unfold instantiated, attempt. by rewrite Hm, Hb, Hh.
    - exact Hr.
    - intros e He. unfold relevancy_metric, attempt in Hm. rewrite He in Hm.
      by destruct (construct lib AnswerRelevancyMetric (relevancy_args self)).
    - by rewrite Hb.
    - by rewrite Hh. }
  eexists. unfold evaluate, bind, ret. rewrite Hi. fold tc.
  unfold score_all, for_fold, score_metric, call_measure, try_except, bind, modify,
    lift, ret.
  rewrite Hmeasure. simpl. rewrite insert_empty. reflexivity.
Qed.

Lemma relevancy_only_report_witness :
  exists t',
    evaluate relevancy_only_lib demo_self "What is X?" "X is a letter." None [] =
    (Ok {| metrics := {[ "RAGASAnswerRelevancyMetric" :=
                           {| score := PyFloat f0_8; reason := PyStr "on topic" |} ]};
           aggregate := Some f0_8 |}, t').
Proof.
  apply (relevancy_only_report relevancy_only_lib demo_self
           "What is X?" "X is a letter." [] demo_relevancy (PyStr "on topic")
           (mk_exn true "no evaluation model") (mk_exn true "no evaluation model"));
    solve [reflexivity | exact I].
Defined.

(** C10 as stated fails: the entry of the relevancy metric is filed
    under the metric's name, here the class name
    [RAGASAnswerRelevancyMetric], and there is no key ["relevancy"]. *)
Lemma relevancy_key_counterexample :
  exists rep t',
    evaluate relevancy_only_lib demo_self "What is X?" "X is a letter." None [] =
      (Ok rep, t') /\
    aggregate rep = Some f0_8 /\
    metrics rep !! "RAGASAnswerRelevancyMetric" =
      Some {| score := PyFloat f0_8; reason := PyStr "on topic" |} /\
    metrics rep !! "relevancy" = None /\
    ~ exists why, metrics rep = {[ "relevancy" := {| score := PyFloat f0_8; reason := why |} ]}.
Proof.
  eexists. eexists. split; [vm_compute; reflexivity|].
  split; [reflexivity|]. split; [reflexivity|]. split; [reflexivity|].
  intros [why Heq].
  apply (f_equal (fun d : gmap string (entry float) => d !! "relevancy")) in Heq.
  rewrite lookup_singleton_eq in Heq. vm_compute in Heq. discriminate.
Qed.

End Binary64.

(** *** Further properties of [evaluate] *)

Section More.
Context {F : Type} `{FloatOps F}.
Variable lib : deepeval F.

Ltac case_constructors :=
  repeat match goal with
         | |- context [construct lib ?c ?a] =>
             let E := fresh "E" in destruct (construct lib c a) eqn:E
         | |- context [exn_is_Exception ?e] =>
             let X := fresh "X" in destruct (exn_is_Exception e) eqn:X
         end.

(** When [instantiate] returns, every raise was caught. *)
Lemma instantiate_Ok self t ms t1 :
  instantiate lib self t = (Ok ms, t1) ->
  ms = instantiated lib self /\ t1 = t ++ constructor_calls lib self.
Proof.
  unfold instantiate, instantiated, relevancy_metric, attempt, constructor_calls,
    new, try_except, bind, modify, lift, ret.
  case_constructors; simpl; try discriminate;
    intros [= <- <-]; rewrite <- ?app_assoc; split; reflexivity.
Qed.

Lemma instantiate_Raise self t e t1 :
  instantiate lib self t = (Raise e, t1) ->
  exn_is_Exception e = false /\ exists cls, construct lib cls (args_for self cls) = Raise e.
Proof.
  unfold instantiate, new, try_except, bind, modify, lift, ret.
  case_constructors; simpl; try discriminate; intros [= <- <-];
    (split; [congruence|]);
    first [ by exists RAGASAnswerRelevancyMetric
          | by exists AnswerRelevancyMetric
          | by exists BiasMetric
          | by exists HallucinationMetric ].
Qed.

Lemma trace_step (P : call -> Prop) (t t' : trace) c :
  (exists cs, t' = t ++ cs /\ Forall P cs) -> P c ->
  exists cs, t' ++ [c] = t ++ cs /\ Forall P cs.
Proof.
  intros (cs & -> & Hcs) Hc. exists (cs ++ [c]). split; [by rewrite app_assoc|].
  apply Forall_app. split; [assumption | by constructor].
Qed.

Lemma trace_start (P : call -> Prop) (t : trace) :
  exists cs, t = t ++ cs /\ Forall P cs.
Proof. exists []. by rewrite app_nil_r. Qed.

Lemma instantiate_trace self t :
  exists cs, snd (instantiate lib self t) = t ++ cs /\ Forall (passes_model self) cs.
Proof.
  unfold instantiate, new, try_except, bind, modify, lift, ret.
  case_constructors; simpl;
    repeat first [ apply trace_start | apply trace_step ]; done.
Qed.

Lemma score_metric_trace tc (m : metric F) acc t :
  snd (score_metric tc m acc t) = t ++ [measure_call tc m].
Proof.
  destruct acc as [results scores].
  unfold score_metric, call_measure, try_except, bind, modify, lift, ret, measure_call.
  destruct (measure (snd m) tc false false) as [[sc re]|e]; simpl.
  - destruct (isinstance_int_float sc); [|reflexivity]. by destruct (py_float sc).
  - by destruct (exn_is_Exception e).
Qed.

Lemma score_loop_trace tc (ms : list (metric F)) acc t :
  exists k, snd (for_fold (score_metric tc) ms acc t)
            = t ++ map (measure_call tc) (firstn k ms).
Proof.
  revert acc t. induction ms as [|m ms IH]; intros acc t; cbn [for_fold].
  - exists 0%nat. simpl. by rewrite app_nil_r.
  - unfold bind. pose proof (score_metric_trace tc m acc t) as Hm.
    destruct (score_metric tc m acc t) as [[acc'|e] t1]; simpl in Hm; subst t1.
    + destruct (IH acc' (t ++ [measure_call tc m])) as [k ->].
      exists (S k). simpl. by rewrite <- app_assoc.
    + exists 1%nat. reflexivity.
Qed.

Lemma py_float_numeric_Raise (sc : pyval F) e :
  isinstance_int_float sc = true -> py_float sc = Raise e -> e = OverflowError.
Proof.
  destruct sc as [|b|z|f|s]; simpl; try discriminate.
  - intros _. destruct (float_of_int (Z.b2z b)); [discriminate | congruence].
  - intros _. destruct (float_of_int z); [discriminate | congruence].
Qed.

Lemma score_metric_Raise tc (m : metric F) acc t e t1 :
  score_metric tc m acc t = (Raise e, t1) -> stops_scoring tc m e.
Proof.
  destruct acc as [results scores].
  unfold score_metric, stops_scoring, call_measure, try_except, bind, modify, lift, ret.
  destruct (measure (snd m) tc false false) as [[sc re]|e0]; simpl.
  - destruct (isinstance_int_float sc) eqn:Hnum; [|discriminate].
    destruct (py_float sc) as [f|e1] eqn:Hf; [discriminate|].
    intros [= <- <-]. right. exists sc, re. repeat split; try assumption.
    by eapply py_float_numeric_Raise.
  - destruct (exn_is_Exception e0) eqn:He0; [discriminate|].
    intros [= <- <-]. by left.
Qed.

Lemma score_loop_Raise tc (ms : list (metric F)) acc t e t1 :
  for_fold (score_metric tc) ms acc t = (Raise e, t1) ->
  exists m, In m ms /\ stops_scoring tc m e.
Proof.
  revert acc t. induction ms as [|m ms IH]; intros acc t; cbn [for_fold].
  - discriminate.
  - unfold bind. destruct (score_metric tc m acc t) as [[acc'|e0] t0] eqn:Hm.
    + intros Hrest. apply IH in Hrest as (m' & Hin & Hstop). exists m'. split; [by right|done].
    + intros [= <- <-]. exists m. split; [by left|]. by eapply score_metric_Raise.
Qed.

Lemma score_loop_stops tc (pre post : list (metric F)) m acc t e :
  Forall (completes tc) pre ->
  (forall acc' t', exists t'', score_metric tc m acc' t' = (Raise e, t'')) ->
  for_fold (score_metric tc) (pre ++ m :: post) acc t =
    (Raise e, t ++ map (measure_call tc) (pre ++ [m])).
Proof.
  intros Hpre Hm. rewrite for_fold_app.
  destruct (score_loop_completes tc pre acc t Hpre) as [acc1 ->].
  cbn [for_fold]. unfold bind.
  pose proof (score_metric_trace tc m acc1 (t ++ map (measure_call tc) pre)) as Htr.
  destruct (Hm acc1 (t ++ map (measure_call tc) pre)) as [t2 Hrun].
  rewrite Hrun in Htr |- *. simpl in Htr. subst t2.
  by rewrite map_app, app_assoc.
Qed.

Lemma record_all_lookup_Some tc (ms : list (metric F)) (results : gmap string (entry F)) n e :
  record_all tc ms results !! n = Some e ->
  results !! n = Some e \/ exists m, In m ms /\ metric_name m = n /\ e = recorded tc m.
Proof.
  revert results. induction ms as [|m ms IH]; intros results; simpl; [by left|].
  intros Hn. apply IH in Hn as [Hn|(m' & Hin & Hm')].
  - rewrite lookup_insert in Hn. case_decide as Heq.
    + right. exists m. split; [by left|]. split; [done | congruence].
    + by left.
  - right. exists m'. split; [by right | done].
Qed.

Lemma record_all_size tc (ms : list (metric F)) (results : gmap string (entry F)) :
  size (record_all tc ms results) <= size results + length ms.
Proof.
  revert results. induction ms as [|m ms IH]; intros results; simpl; [lia|].
  etrans; [apply IH|].
  destruct (results !! metric_name m) eqn:Hn.
  - rewrite map_size_insert_Some by eauto. lia.
  - rewrite map_size_insert_None by done. lia.
Qed.

Lemma instantiated_length self : length (instantiated lib self) <= 3.
Proof.
  unfold instantiated, relevancy_metric, attempt.
  repeat match goal with
         | |- context [construct lib ?c ?a] => destruct (construct lib c a)
         end; simpl; lia.
Qed.

Lemma numeric_nil (vs : list (pyval F)) :
  numeric vs = [] <-> forall v, In v vs -> isinstance_int_float v = false.
Proof.
  induction vs as [|v vs IH]; simpl.
  - split; [by intros _ v [] | done].
  - destruct (isinstance_int_float v) eqn:Hv.
    + split; [discriminate|]. intros Hall. specialize (Hall v (or_introl eq_refl)). congruence.
    + rewrite IH. split.
      * intros Hall w [<-|Hin]; [done | by apply Hall].
      * intros Hall w Hin. apply Hall. by right.
Qed.

Lemma measure_calls_quiet tc (ms : list (metric F)) :
  Forall (measures_quietly tc) (map (measure_call tc) ms).
Proof. induction ms as [|m ms IH]; simpl; constructor; [done | exact IH]. Qed.

(** X1.  [evaluate] raises only what a constructor or a [measure] call
    raised that is not an [Exception], or [OverflowError] for a numeric
    score that [float] cannot convert: no [Exception] of a metric gets
    out. *)
Theorem evaluate_raise_cause self input_text response_text ctx t e t' :
  evaluate lib self input_text response_text ctx t = (Raise e, t') ->
  let tc := test_case input_text response_text ctx in
  (exn_is_Exception e = false /\
   exists cls, construct lib cls (args_for self cls) = Raise e) \/
  (exists m, In m (instantiated lib self) /\ stops_scoring tc m e).
Proof.
  intros Hev tc. unfold evaluate, bind in Hev. fold tc in Hev.
  destruct (instantiate lib self t) as [[ms|e0] t1] eqn:Hi.
  - apply instantiate_Ok in Hi as [-> _]. unfold score_all in Hev.
    destruct (for_fold (score_metric tc) (instantiated lib self) (∅, []) t1)
      as [[[results scores]|e1] t2] eqn:Hs; [discriminate|].
    injection Hev as <- <-. right. by eapply score_loop_Raise.
  - injection Hev as <- <-. left. by eapply instantiate_Raise.
Qed.

(** X2.  Whatever happens, the external calls of [evaluate] are
    constructor calls followed by [measure] calls.  Every constructor
    is given the evaluator's model (and the RAGAS one alone its
    embeddings); every [measure] gets the one test case, built from the
    two texts with the normalized context in both context roles, and
    has the indicator and the logging switched off. *)
Theorem evaluate_external_calls self input_text response_text ctx t :
  let tc := test_case input_text response_text ctx in
  (input tc = input_text /\ actual_output tc = response_text /\
   context tc = or_empty ctx /\ retrieval_context tc = or_empty ctx) /\
  exists cs ms,
    snd (evaluate lib self input_text response_text ctx t) = t ++ cs ++ ms /\
    Forall (passes_model self) cs /\ Forall (measures_quietly tc) ms.
Proof.
  intros tc. split; [done|].
  destruct (instantiate_trace self t) as (cs & Hcs & Hmodel).
  unfold evaluate, bind. fold tc.
  destruct (instantiate lib self t) as [[ms|e] t1]; simpl in Hcs; subst t1.
  - destruct (score_loop_trace tc ms (∅, []) (t ++ cs)) as [k Hk].
    unfold score_all.
    destruct (for_fold (score_metric tc) ms (∅, []) (t ++ cs))
      as [[[results scores]|e] t2]; simpl in Hk |- *;
      subst t2; exists cs, (map (measure_call tc) (firstn k ms));
      (split; [by rewrite app_assoc|]); (split; [done|]); apply measure_calls_quiet.
  - exists cs, []. rewrite app_nil_r. by repeat split.
Qed.

(** X3.  When all four constructors raise an [Exception], [evaluate]
    still returns: the mapping is empty, the aggregate is [None], all
    four constructors were tried and nothing was measured. *)
Theorem evaluate_without_metrics self input_text response_text ctx t :
  (forall cls, exists e,
      construct lib cls (args_for self cls) = Raise e /\ exn_is_Exception e = true) ->
  evaluate lib self input_text response_text ctx t =
  (Ok {| metrics := ∅; aggregate := None |},
   t ++ [Construct RAGASAnswerRelevancyMetric (ragas_args self);
         Construct AnswerRelevancyMetric (relevancy_args self);
         Construct BiasMetric (bias_args self);
         Construct HallucinationMetric (hallucination_args self)]).
Proof.
  intros Hall.
  destruct (Hall RAGASAnswerRelevancyMetric) as (e1 & H1 & X1).
  destruct (Hall AnswerRelevancyMetric) as (e2 & H2 & X2).
  destruct (Hall BiasMetric) as (e3 & H3 & X3).
  destruct (Hall HallucinationMetric) as (e4 & H4 & X4).
  simpl in H1, H2, H3, H4.
  unfold evaluate, bind. rewrite (instantiate_eq lib self t).
  - unfold instantiated, relevancy_metric, attempt, constructor_calls.
    by rewrite H1, H2, H3, H4.
  - by rewrite H1.
  - intros _ _. by rewrite H2.
  - by rewrite H3.
  - by rewrite H4.
Qed.

(** X4.  With pairwise distinct metric names, the returned aggregate
    is [None] exactly when no entry of the returned mapping has a
    numeric score. *)
Theorem aggregate_None_iff_no_numeric_entry
    self input_text response_text ctx t rep t' :
  evaluate lib self input_text response_text ctx t = (Ok rep, t') ->
  NoDup (map metric_name (instantiated lib self)) ->
  (aggregate rep = None <->
   forall n e, metrics rep !! n = Some e -> isinstance_int_float (score e) = false).
Proof.
  intros Hev Hnd.
  apply evaluate_Ok in Hev as (ms & t1 & scores & Hi & Hs & Hagg).
  apply instantiate_Ok in Hi as [-> _].
  apply score_loop_Ok in Hs as (Hres & _ & xs & -> & Hxs).
  set (tc := test_case input_text response_text ctx) in *.
  rewrite Hagg, Hres, aggregate_of_eq. simpl.
  assert (Hnone : arithmetic_mean xs = None <->
                  numeric (map (fun m => score (recorded tc m)) (instantiated lib self)) = []).
  { split.
    - intros Hx. destruct xs; [|discriminate]. by inversion Hxs.
    - intros Hn. rewrite Hn in Hxs. by inversion Hxs. }
  rewrite Hnone, numeric_nil. split.
  - intros Hall n e Hn. apply record_all_lookup_Some in Hn as [Hn|(m & Hin & _ & ->)].
    + by rewrite lookup_empty in Hn.
    + apply Hall. apply in_map_iff. by exists m.
  - intros Hall v Hv. apply in_map_iff in Hv as (m & <- & Hin).
    apply (Hall (metric_name m)). by apply record_all_lookup_NoDup.
Qed.

(** X5.  Whenever [evaluate] returns, the keys of the mapping are
    exactly the names of the instantiated metrics, every entry is what
    was recorded for an instantiated metric of that name, and there are
    at most three entries. *)
Theorem returned_entries_are_recorded self input_text response_text ctx t rep t' :
  evaluate lib self input_text response_text ctx t = (Ok rep, t') ->
  let tc := test_case input_text response_text ctx in
  dom (metrics rep) = list_to_set (map metric_name (instantiated lib self)) /\
  (forall n e,
     metrics rep !! n = Some e ->
     exists m, In m (instantiated lib self) /\ metric_name m = n /\ e = recorded tc m) /\
  size (metrics rep) <= 3.
Proof.
  intros Hev tc.
  apply evaluate_Ok in Hev as (ms & t1 & scores & Hi & Hs & _).
  apply instantiate_Ok in Hi as [-> _].
  apply score_loop_Ok in Hs as (-> & _). fold tc. split; [|split].
  - rewrite record_all_dom, dom_empty_L. by rewrite (right_id_L ∅ (∪)).
  - intros n e Hn. apply record_all_lookup_Some in Hn as [Hn|Hn]; [|done].
    by rewrite lookup_empty in Hn.
  - etrans; [apply record_all_size|]. rewrite map_size_empty. simpl.
    apply instantiated_length.
Qed.

(** X6.  When [instantiate] returns, each metric in the list is the
    instance that the constructor of its class returned; the classes
    come in the order relevancy, bias, hallucination, with at most one
    relevancy metric, and the generic one only after the RAGAS
    constructor raised an [Exception]. *)
Theorem at_most_one_relevancy_metric self t ms t1 :
  instantiate lib self t = (Ok ms, t1) ->
  (forall c obj, In (c, obj) ms -> construct lib c (args_for self c) = Ok obj) /\
  (sublist (map fst ms) [RAGASAnswerRelevancyMetric; BiasMetric; HallucinationMetric] \/
   (sublist (map fst ms) [AnswerRelevancyMetric; BiasMetric; HallucinationMetric] /\
    exists e, construct lib RAGASAnswerRelevancyMetric (ragas_args self) = Raise e /\
              exn_is_Exception e = true)).
Proof.
  unfold instantiate, new, try_except, bind, modify, lift, ret.
  case_constructors; simpl; try discriminate; intros [= <- <-]; (split;
    [ intros c obj Hin; simpl in Hin;
      repeat (destruct Hin as [Hin|Hin]; [injection Hin as <- <-; assumption|]);
      destruct Hin
    | first [ left; solve [repeat constructor]
            | right; split; [solve [repeat constructor] | eauto] ] ]).
Qed.

(** X7.  When the [measure] call of a metric raises something that is
    not an [Exception], [evaluate] raises it: the metrics after it are
    not measured and no report is returned. *)
Theorem interrupt_in_measure_propagates
    self input_text response_text ctx t pre m post t1 e :
  let tc := test_case input_text response_text ctx in
  instantiate lib self t = (Ok (pre ++ m :: post), t1) ->
  Forall (completes tc) pre ->
  measure (snd m) tc false false = Raise e ->
  exn_is_Exception e = false ->
  evaluate lib self input_text response_text ctx t =
  (Raise e, t1 ++ map (measure_call tc) (pre ++ [m])).
Proof.
  intros tc Hi Hpre Hm He. unfold evaluate, bind. rewrite Hi. fold tc. unfold score_all.
  rewrite (score_loop_stops tc pre post m (∅, []) t1 e Hpre); [reflexivity|].
  intros [results scores] t0. eexists.
  unfold score_metric, call_measure, try_except, bind, modify, lift, ret.
  by rewrite Hm, He.
Qed.

(** X8.  The conversion [float(score)] is outside the [try]: when a
    metric returns as score an integer too large for a float,
    [evaluate] raises [OverflowError], the metrics after it are not
    measured and no report is returned. *)
Theorem unconvertible_score_raises
    self input_text response_text ctx t pre m post t1 z why :
  let tc := test_case input_text response_text ctx in
  instantiate lib self t = (Ok (pre ++ m :: post), t1) ->
  Forall (completes tc) pre ->
  measure (snd m) tc false false = Ok (PyInt z, why) ->
  float_of_int z = None ->
  evaluate lib self input_text response_text ctx t =
  (Raise OverflowError, t1 ++ map (measure_call tc) (pre ++ [m])).
Proof.
  intros tc Hi Hpre Hm Hz. unfold evaluate, bind. rewrite Hi. fold tc. unfold score_all.
  rewrite (score_loop_stops tc pre post m (∅, []) t1 OverflowError Hpre); [reflexivity|].
  intros [results scores] t0. eexists.
  unfold score_metric, call_measure, try_except, bind, modify, lift, ret.
  rewrite Hm. simpl. by rewrite Hz.
Qed.

End More.

Section MoreBinary64.
Import binary64.

Example demo_interrupted :
  evaluate interrupted_lib demo_self "What is X?" "X is a letter." None [] =
  (Raise (mk_exn false "KeyboardInterrupt"),
   demo_constructor_calls
   ++ [Measure RAGASAnswerRelevancyMetric demo_tc false false;
       Measure BiasMetric demo_tc false false]).
Proof. vm_compute. reflexivity. Qed.

Lemma demo_names_distinct : NoDup (map metric_name (instantiated demo_lib demo_self)).
Proof.
  change (NoDup ["RAGASAnswerRelevancyMetric"; "Hallucination"]).
  apply NoDup_cons. split; [|apply NoDup_singleton].
  rewrite list_elem_of_In. simpl. intros [Heq|[]]. discriminate.
Qed.

Lemma evaluate_raise_cause_witness :
  (exn_is_Exception (mk_exn false "KeyboardInterrupt") = false /\
   exists cls,
     construct interrupted_lib cls (args_for demo_self cls)
     = Raise (mk_exn false "KeyboardInterrupt")) \/
  (exists m, In m (instantiated interrupted_lib demo_self) /\
             stops_scoring demo_tc m (mk_exn false "KeyboardInterrupt")).
Proof.
  apply (evaluate_raise_cause interrupted_lib demo_self
           "What is X?" "X is a letter." None []
           (mk_exn false "KeyboardInterrupt")
           (demo_constructor_calls
            ++ [Measure RAGASAnswerRelevancyMetric demo_tc false false;
                Measure BiasMetric demo_tc false false])).
  vm_compute. reflexivity.
Defined.

Lemma evaluate_without_metrics_witness :
  evaluate unavailable_lib demo_self "What is X?" "X is a letter." None [] =
  (Ok {| metrics := ∅; aggregate := None |},
   [] ++ [Construct RAGASAnswerRelevancyMetric (ragas_args demo_self);
          Construct AnswerRelevancyMetric (relevancy_args demo_self);
          Construct BiasMetric (bias_args demo_self);
          Construct HallucinationMetric (hallucination_args demo_self)]).
Proof.
  apply (evaluate_without_metrics unavailable_lib demo_self
           "What is X?" "X is a letter." None []).
  intros cls. exists (mk_exn true "no evaluation model"). split; reflexivity.
Defined.

Lemma aggregate_None_iff_no_numeric_entry_witness :
  aggregate demo_report = None <->
  forall n e, metrics demo_report !! n = Some e -> isinstance_int_float (score e) = false.
Proof.
  apply (aggregate_None_iff_no_numeric_entry demo_lib demo_self
           "What is X?" "X is a letter." None [] demo_report demo_trace).
  - vm_compute. reflexivity.
  - exact demo_names_distinct.
Defined.

Lemma returned_entries_are_recorded_witness :
  dom (metrics demo_report) = list_to_set (map metric_name (instantiated demo_lib demo_self)) /\
  (forall n e,
     metrics demo_report !! n = Some e ->
     exists m, In m (instantiated demo_lib demo_self) /\ metric_name m = n /\
               e = recorded demo_tc m) /\
  size (metrics demo_report) <= 3.
Proof.
  apply (returned_entries_are_recorded demo_lib demo_self
           "What is X?" "X is a letter." None [] demo_report demo_trace).
  vm_compute. reflexivity.
Defined.

Lemma at_most_one_relevancy_metric_witness :
  (forall c obj,
     In (c, obj) [demo_relevancy; demo_hallucination] ->
     construct demo_lib c (args_for demo_self c) = Ok obj) /\
  (sublist (map fst [demo_relevancy; demo_hallucination])
     [RAGASAnswerRelevancyMetric; BiasMetric; HallucinationMetric] \/
   (sublist (map fst [demo_relevancy; demo_hallucination])
      [AnswerRelevancyMetric; BiasMetric; HallucinationMetric] /\
    exists e, construct demo_lib RAGASAnswerRelevancyMetric (ragas_args demo_self) = Raise e /\
              exn_is_Exception e = true)).
Proof.
  apply (at_most_one_relevancy_metric demo_lib demo_self []
           [demo_relevancy; demo_hallucination] demo_constructor_calls).
  reflexivity.
Defined.

Lemma interrupt_in_measure_propagates_witness :
  evaluate interrupted_lib demo_self "What is X?" "X is a letter." None [] =
  (Raise (mk_exn false "KeyboardInterrupt"),
   demo_constructor_calls
   ++ map (measure_call demo_tc) ([demo_relevancy] ++ [demo_bias_interrupted])).
Proof.
  apply (interrupt_in_measure_propagates interrupted_lib demo_self
           "What is X?" "X is a letter." None []
           [demo_relevancy] demo_bias_interrupted [demo_hallucination_half]
           demo_constructor_calls (mk_exn false "KeyboardInterrupt")).
  - reflexivity.
  - repeat constructor. simpl. intros _. exists f0_8. reflexivity.
  - reflexivity.
  - reflexivity.
Defined.

Lemma unconvertible_score_raises_witness :
  evaluate huge_score_lib demo_self "What is X?" "X is a letter." None [] =
  (Raise OverflowError,
   demo_constructor_calls
   ++ map (measure_call demo_tc) ([demo_relevancy] ++ [demo_bias_huge])).
Proof.
  apply (unconvertible_score_raises huge_score_lib demo_self
           "What is X?" "X is a letter." None []
           [demo_relevancy] demo_bias_huge [demo_hallucination_half]
           demo_constructor_calls (2 ^ 1024) PyNone).
  - reflexivity.
  - repeat constructor. simpl. intros _. exists f0_8. reflexivity.
  - reflexivity.
  - vm_compute. reflexivity.
Defined.

End MoreBinary64.
End evaluator_facts.

(** ** The ingestion adapter *)

Module loader_facts.
Import doc_loader loader_spec.

Section Facts.
Variable lib : langchain.

Lemma extend_nil s : extend s [] [] [] = s.
Proof. destruct s. unfold extend. simpl. by rewrite !app_nil_r. Qed.

Lemma extend_extend s d o c d' o' c' :
  extend (extend s d o c) d' o' c' = extend s (d ++ d') (o ++ o') (c ++ c').
Proof. unfold extend. simpl. by rewrite !app_assoc. Qed.

Lemma print_run args s : print args s = (Ok tt, extend s [] [args] []).
Proof. unfold print, modify, extend. by rewrite !app_nil_r. Qed.

Lemma record_run c s : record c s = (Ok tt, extend s [] [] [c]).
Proof. unfold record, modify, extend. by rewrite !app_nil_r. Qed.

Lemma docs_extend_run l s : docs_extend l s = (Ok tt, extend s l [] []).
Proof. unfold docs_extend, modify, extend. by rewrite !app_nil_r. Qed.

Lemma or_empty_Some {A} (l : list A) : or_empty (Some l) = l.
Proof. by destruct l. Qed.

(** *** One file, one link *)

Lemma load_file_run p s :
  load_file lib p s =
  (match file_result lib p with Ok _ => Ok tt | Raise e => Raise e end,
   extend s (file_docs lib p) [] (file_calls lib p)).
Proof.
  unfold load_file, file_docs, file_result, file_calls, call_load, bind, lift, ret.
  destruct (endswith (lower p) ".pdf").
  - rewrite record_run. destruct (PyPDFLoader lib p) as [loader|e]; [|reflexivity].
    rewrite record_run. destruct (load loader) as [l|e].
    + by rewrite docs_extend_run, !extend_extend.
    + by rewrite extend_extend.
  - destruct (endswith (lower p) ".xls" || endswith (lower p) ".xlsx").
    + rewrite record_run.
      destruct (UnstructuredExcelLoader lib p) as [loader|e]; [|reflexivity].
      rewrite record_run. destruct (load loader) as [l|e].
      * by rewrite docs_extend_run, !extend_extend.
      * by rewrite extend_extend.
    + by rewrite extend_nil.
Qed.

Lemma load_link_run link s :
  loads_or_fails lib link ->
  exists o,
    load_link lib link s = (Ok tt, extend s (link_docs lib link) o (link_calls link)) /\
    forall e, link_fails lib link e -> In (failure_message link e) o.
Proof.
  intros (loader & Hnew & Hload).
  unfold load_link, link_docs, link_calls, link_fails, call_load, try_except, bind, lift, ret.
  rewrite record_run, Hnew, print_run, record_run.
  destruct (load loader) as [l|e] eqn:Hl.
  - rewrite docs_extend_run, !extend_extend. eexists. split; [reflexivity|].
    intros e (loader' & Hnew' & Hl'). congruence.
  - simpl in Hload. rewrite Hload, print_run, !extend_extend. eexists. split; [reflexivity|].
    intros e' (loader' & Hnew' & Hl'). simpl.
    assert (e' = e) as -> by congruence. right. by left.
Qed.

(** *** The two loops *)

Lemma files_loaded files s :
  Forall (fun p => exists l, file_result lib p = Ok l) files ->
  for_each (load_file lib) files s =
  (Ok tt, extend s (flat_map (file_docs lib) files) [] (flat_map (file_calls lib) files)).
Proof.
  intros Hall. revert s.
  induction Hall as [|p files [l Hl] _ IH]; intros s; cbn [for_each flat_map].
  - by rewrite extend_nil.
  - unfold bind. rewrite load_file_run, Hl, IH. by rewrite extend_extend.
Qed.

Lemma links_loaded links s :
  Forall (loads_or_fails lib) links ->
  exists o,
    for_each (load_link lib) links s =
      (Ok tt, extend s (flat_map (link_docs lib) links) o (flat_map link_calls links)) /\
    forall link e, In link links -> link_fails lib link e -> In (failure_message link e) o.
Proof.
  intros Hall. revert s.
  induction Hall as [|link links Hlink _ IH]; intros s; cbn [for_each flat_map].
  - exists []. rewrite extend_nil. split; [reflexivity|]. by intros link e [].
  - unfold bind. destruct (load_link_run link s Hlink) as (o1 & -> & Ho1).
    destruct (IH (extend s (link_docs lib link) o1 (link_calls link))) as (o2 & -> & Ho2).
    exists (o1 ++ o2). rewrite extend_extend. split; [reflexivity|].
    intros link' e [<-|Hin] Hfail; apply in_or_app; [left; by apply Ho1 | right; by eapply Ho2].
Qed.

(** *** Extensions *)

Lemma endswith_lower path ext :
  endswith (lower path) ext = true <-> ends_with_ignoring_case path ext.
Proof.
  rewrite endswith_spec. unfold ends_with_ignoring_case. split.
  - intros [pre Hpre]. apply lower_split in Hpre as (a & b & -> & _ & <-). by exists a, b.
  - intros (pre & suf & -> & <-). exists (lower pre). apply lower_app.
Qed.

Lemma unsupported_file_result path : unsupported path -> file_result lib path = Ok [].
Proof.
  intros (Hpdf & Hxls & Hxlsx). unfold file_result.
  rewrite <- endswith_lower in Hpdf, Hxls, Hxlsx.
  apply not_true_is_false in Hpdf, Hxls, Hxlsx. by rewrite Hpdf, Hxls, Hxlsx.
Qed.

Lemma unsupported_file_calls path : unsupported path -> file_calls lib path = [].
Proof.
  intros (Hpdf & Hxls & Hxlsx). unfold file_calls.
  rewrite <- endswith_lower in Hpdf, Hxls, Hxlsx.
  apply not_true_is_false in Hpdf, Hxls, Hxlsx. by rewrite Hpdf, Hxls, Hxlsx.
Qed.

Lemma unsupported_files_skipped files s :
  Forall unsupported files -> for_each (load_file lib) files s = (Ok tt, s).
Proof.
  intros Hall. revert s. induction Hall as [|p files Hp _ IH]; intros s; cbn [for_each].
  - reflexivity.
  - unfold bind. rewrite load_file_run. unfold file_docs.
    rewrite (unsupported_file_result p Hp), (unsupported_file_calls p Hp), extend_nil.
    apply IH.
Qed.

(** *** Independence of the starting state *)

Lemma steady_ext {A} (c c' : M state A) : (forall s, c s = c' s) -> steady c -> steady c'.
Proof.
  intros Heq (r & d & cs & Hc). exists r, d, cs. intros s. rewrite <- Heq. apply Hc.
Qed.

Lemma steady_ret {A} (a : A) : steady (ret a).
Proof. exists (Ok a), [], []. intros s. exists []. unfold ret. by rewrite extend_nil. Qed.

Lemma steady_lift {A} (r : result A) : steady (lift r).
Proof. exists r, [], []. intros s. exists []. unfold lift. by rewrite extend_nil. Qed.

Lemma steady_print args : steady (print args).
Proof. exists (Ok tt), [], []. intros s. exists [args]. apply print_run. Qed.

Lemma steady_record c : steady (record c).
Proof. exists (Ok tt), [], [c]. intros s. exists []. apply record_run. Qed.

Lemma steady_docs_extend l : steady (docs_extend l).
Proof. exists (Ok tt), l, []. intros s. exists []. apply docs_extend_run. Qed.

Lemma steady_print_docs : steady (s <- get ;; print [PDocs (docs s)]).
Proof.
  exists (Ok tt), [], []. intros s. exists [[PDocs (docs s)]].
  unfold bind, get. apply print_run.
Qed.

Lemma steady_bind {A B} (c : M state A) (k : A -> M state B) :
  steady c -> (forall a, steady (k a)) -> steady (bind c k).
Proof.
  intros ([a|e] & d & cs & Hc) Hk.
  - destruct (Hk a) as (r & d' & cs' & Hka).
    exists r, (d ++ d'), (cs ++ cs'). intros s.
    destruct (Hc s) as [o Hs]. destruct (Hka (extend s d o cs)) as [o' Hs'].
    exists (o ++ o'). unfold bind. by rewrite Hs, Hs', extend_extend.
  - exists (Raise e), d, cs. intros s. destruct (Hc s) as [o Hs].
    exists o. unfold bind. by rewrite Hs.
Qed.

Lemma steady_try_except {A} (body : M state A) (handler : exn -> M state A) :
  steady body -> (forall e, steady (handler e)) -> steady (try_except body handler).
Proof.
  intros ([a|e] & d & cs & Hc) Hh.
  - exists (Ok a), d, cs. intros s. destruct (Hc s) as [o Hs].
    exists o. unfold try_except. by rewrite Hs.
  - destruct (exn_is_Exception e) eqn:He.
    + destruct (Hh e) as (r & d' & cs' & Hhe).
      exists r, (d ++ d'), (cs ++ cs'). intros s.
      destruct (Hc s) as [o Hs]. destruct (Hhe (extend s d o cs)) as [o' Hs'].
      exists (o ++ o'). unfold try_except. by rewrite Hs, He, Hs', extend_extend.
    + exists (Raise e), d, cs. intros s. destruct (Hc s) as [o Hs].
      exists o. unfold try_except. by rewrite Hs, He.
Qed.

Lemma steady_for_each {A} (body : A -> M state unit) (l : list A) :
  (forall x, steady (body x)) -> steady (for_each body l).
Proof.
  intros Hbody. induction l as [|x l IH]; cbn [for_each].
  - apply steady_ret.
  - apply steady_bind; [apply Hbody | intros _; apply IH].
Qed.

Create HintDb steady discriminated.
#[local] Hint Resolve steady_ret steady_lift steady_print steady_record
  steady_docs_extend steady_print_docs : steady.

Lemma steady_load_file p : steady (load_file lib p).
Proof.
  unfold load_file, call_load.
  repeat first [ destruct (endswith _ _) | destruct (_ || _) ];
    repeat first [ apply steady_bind | intros ? ]; auto with steady.
Qed.

Lemma steady_load_link link : steady (load_link lib link).
Proof.
  unfold load_link, call_load.
  repeat first [ apply steady_bind | apply steady_try_except | intros ? ]; auto with steady.
Qed.

Lemma init_unfold files links s :
  __init__ lib files links s =
  (let self := {| rag_files := or_empty files; rag_links := or_empty links |} in
   if truthy (or_empty files) || truthy (or_empty links) then
     print [PStrList (or_empty files); PStrList (or_empty links)] ;;;
     for_each (load_file lib) (or_empty files) ;;;
     for_each (load_link lib) (or_empty links) ;;;
     (s <- get ;; print [PDocs (docs s)]) ;;;
     ret self
   else ret self) s.
Proof.
  unfold __init__, _build_vectorstore. cbn [rag_files rag_links].
  destruct (truthy (or_empty files) || truthy (or_empty links)); [|reflexivity].
  unfold bind, get, ret. rewrite print_run.
  destruct (for_each (load_file lib) _ _) as [[[]|e] s1]; [|reflexivity].
  destruct (for_each (load_link lib) _ _) as [[[]|e] s2]; [|reflexivity].
  by rewrite print_run.
Qed.

Lemma steady_init files links : steady (__init__ lib files links).
Proof.
  eapply steady_ext; [intros s; symmetry; apply init_unfold|].
  cbv zeta. destruct (truthy (or_empty files) || truthy (or_empty links)).
  - repeat first [ apply steady_print_docs | apply steady_bind | intros ? ];
      auto with steady;
      apply steady_for_each; auto using steady_load_file, steady_load_link.
  - apply steady_ret.
Qed.

Lemma init_instance files links s self :
  fst (__init__ lib files links s) = Ok self ->
  self = {| rag_files := or_empty files; rag_links := or_empty links |}.
Proof.
  rewrite init_unfold. cbv zeta.
  destruct (truthy (or_empty files) || truthy (or_empty links)).
  - unfold bind, ret.
    repeat match goal with
           | |- context [match ?c ?s with _ => _ end] =>
               lazymatch c with
               | bind _ _ => fail
               | _ => destruct (c s) as [[?|?] ?]
               end
           end; simpl; congruence.
  - unfold ret. simpl. congruence.
Qed.

Lemma unsupported_by_test path :
  endswith (lower path) ".pdf" = false ->
  endswith (lower path) ".xls" = false ->
  endswith (lower path) ".xlsx" = false ->
  unsupported path.
Proof.
  intros Hpdf Hxls Hxlsx. unfold unsupported. rewrite <- !endswith_lower.
  rewrite Hpdf, Hxls, Hxlsx. done.
Qed.

Lemma load_link_cases link s :
  match WebBaseLoader lib link 1 true with
  | Raise e =>
      load_link lib link s = (Raise e, extend s [] [] [NewWebBaseLoader link 1 true])
  | Ok loader =>
      match load loader with
      | Ok l =>
          load_link lib link s =
          (Ok tt, extend s l [[PText "*"; PLoader (loader_repr loader)]] (link_calls link))
      | Raise e =>
          load_link lib link s =
          (if exn_is_Exception e then Ok tt else Raise e,
           extend s []
             ([PText "*"; PLoader (loader_repr loader)]
                :: if exn_is_Exception e then [failure_message link e] else [])
             (link_calls link))
      end
  end.
Proof.
  unfold load_link, link_calls, failure_message, call_load, try_except, bind, lift, ret.
  rewrite record_run. destruct (WebBaseLoader lib link 1 true) as [loader|e]; [|reflexivity].
  rewrite print_run, record_run. destruct (load loader) as [l|e].
  - by rewrite docs_extend_run, !extend_extend.
  - destruct (exn_is_Exception e); by rewrite ?print_run, !extend_extend.
Qed.

Lemma import_module_run s :
  import_module lib s =
  match load_link lib guide_url
          (extend {| docs := []; stdout := stdout s; calls := calls s |}
             [] [[PStrList []; PStrList [guide_url]]] []) with
  | (Ok _, s1) => (Ok tt, extend s1 [] [[PDocs (docs s1)]; [PDocs (docs s1)]] [])
  | (Raise e, s1) => (Raise e, s1)
  end.
Proof.
  unfold import_module, docs_bind_empty, modify. unfold bind at 1 2.
  rewrite init_unfold. cbv zeta. cbn [or_empty truthy orb for_each].
  unfold bind, ret, get. rewrite print_run.
  destruct (load_link lib guide_url _) as [[[]|e] s1]; [|reflexivity].
  rewrite print_run. cbv beta iota. rewrite print_run, extend_extend.
  cbn [docs extend]. by rewrite !app_nil_r.
Qed.

(** *** What a construction appends *)

Lemma bind_assoc {S A B C} (c : M S A) (f : A -> M S B) (g : B -> M S C) (s : S) :
  bind (bind c f) g s = bind c (fun a => bind (f a) g) s.
Proof. unfold bind. by destruct (c s) as [[a|e] s']. Qed.

Lemma links_phase_docs {A} links (k : M state A) s :
  (forall s0, docs (snd (k s0)) = docs s0) ->
  docs (snd ((for_each (load_link lib) links ;;; k) s))
  = docs s ++ links_collected lib links.
Proof.
  intros Hk. revert s. induction links as [|link links IH]; intros s;
    cbn [for_each links_collected].
  - unfold bind, ret. by rewrite Hk, app_nil_r.
  - rewrite bind_assoc. unfold bind at 1.
    pose proof (load_link_cases link s) as Hrun.
    destruct (WebBaseLoader lib link 1 true) as [loader|e].
    + destruct (load loader) as [l|e].
      * rewrite Hrun, IH. simpl. by rewrite app_assoc.
      * destruct (exn_is_Exception e); rewrite Hrun.
        -- rewrite IH. simpl. by rewrite app_nil_r.
        -- simpl. by rewrite !app_nil_r.
    + rewrite Hrun. simpl. by rewrite !app_nil_r.
Qed.

Lemma files_phase_docs {A} files links (k : M state A) s :
  (forall s0, docs (snd (k s0)) = docs s0) ->
  docs (snd ((for_each (load_file lib) files ;;; for_each (load_link lib) links ;;; k) s))
  = docs s ++ collected lib files links.
Proof.
  intros Hk. revert s. induction files as [|p files IH]; intros s;
    cbn [for_each collected].
  - unfold bind at 1, ret. by apply links_phase_docs.
  - rewrite bind_assoc. unfold bind at 1. rewrite load_file_run. unfold file_docs.
    destruct (file_result lib p) as [l|e].
    + rewrite IH. simpl. by rewrite app_assoc.
    + simpl. by rewrite !app_nil_r.
Qed.

Lemma init_docs files links s :
  docs (snd (__init__ lib files links s))
  = docs s ++ collected lib (or_empty files) (or_empty links).
Proof.
  rewrite init_unfold. cbv zeta.
  destruct (or_empty files) as [|p files'] eqn:Hf.
  - destruct (or_empty links) as [|link links'] eqn:Hl.
    + simpl. by rewrite app_nil_r.
    + cbn [truthy orb]. unfold bind at 1. rewrite print_run.
      rewrite files_phase_docs; [cbn [docs extend]; by rewrite app_nil_r|].
      intros s0. unfold bind, get, ret. rewrite print_run. simpl. by rewrite app_nil_r.
  - cbn [truthy orb]. unfold bind at 1. rewrite print_run.
    rewrite files_phase_docs; [cbn [docs extend]; by rewrite app_nil_r|].
    intros s0. unfold bind, get, ret. rewrite print_run. simpl. by rewrite app_nil_r.
Qed.

Lemma collected_all_loaded files links :
  Forall (fun p => exists l, file_result lib p = Ok l) files ->
  Forall (loads_or_fails lib) links ->
  collected lib files links
  = flat_map (file_docs lib) files ++ flat_map (link_docs lib) links.
Proof.
  intros Hfiles Hlinks. induction Hfiles as [|p files [l Hl] _ IH]; cbn [collected flat_map].
  - induction Hlinks as [|link links (loader & Hnew & Hload) _ IH];
      cbn [links_collected flat_map]; [reflexivity|].
    unfold link_docs at 1. rewrite Hnew. destruct (load loader) as [l|e].
    + by rewrite IH.
    + simpl in Hload. by rewrite Hload, IH.
  - unfold file_docs at 1. by rewrite Hl, IH, app_assoc.
Qed.

(** *** The claims about [document_loader] *)

(** C4.  There is one list, the module-level [docs], and every
    construction appends to it: after a construction [docs] is what it
    held before followed by the documents that this construction
    loaded (those of the files and then of the links, as far as the
    loading got), whatever the list held and whichever instance did the
    loading.  The instance carries the two argument lists and no
    documents.  A second construction appends after the first.  When
    every file loads and every link loads or fails with an [Exception],
    what is appended is all the files' documents followed by those of
    all the links that loaded. *)
Theorem docs_is_shared_and_cumulative files links :
  let added := collected lib (or_empty files) (or_empty links) in
  (forall s, docs (snd (__init__ lib files links s)) = docs s ++ added) /\
  (forall s self,
     fst (__init__ lib files links s) = Ok self ->
     self = {| rag_files := or_empty files; rag_links := or_empty links |}) /\
  (forall files' links' s,
     docs (snd (__init__ lib files' links' (snd (__init__ lib files links s))))
     = docs s ++ added ++ collected lib (or_empty files') (or_empty links')) /\
  (Forall (fun p => exists l, file_result lib p = Ok l) (or_empty files) ->
   Forall (loads_or_fails lib) (or_empty links) ->
   added = flat_map (file_docs lib) (or_empty files)
           ++ flat_map (link_docs lib) (or_empty links)).
Proof.
  cbv zeta. split; [|split; [|split]].
  - intros s. apply init_docs.
  - intros s self. apply init_instance.
  - intros files' links' s. by rewrite !init_docs, app_assoc.
  - apply collected_all_loaded.
Qed.

(** C5.  Executing the module constructs a [WebBaseLoader] for the one
    hard-coded URL and, when that succeeds, calls its [load]; the
    documents it returns are then the content of [docs], and any later
    construction appends after them. *)
Theorem import_loads_the_guide s :
  guide_url = "https://deepeval.com/guides/guides-ai-agent-evaluation" /\
  let r := fst (import_module lib s) in
  let s' := snd (import_module lib s) in
  match WebBaseLoader lib guide_url 1 true with
  | Raise e =>
      r = Raise e /\ docs s' = [] /\
      calls s' = calls s ++ [NewWebBaseLoader guide_url 1 true]
  | Ok loader =>
      calls s' = calls s ++ [NewWebBaseLoader guide_url 1 true; CallLoad guide_url] /\
      match load loader with
      | Ok l =>
          r = Ok tt /\ docs s' = l /\
          forall files links, exists added,
            docs (snd (__init__ lib files links s')) = l ++ added
      | Raise e =>
          docs s' = [] /\ r = if exn_is_Exception e then Ok tt else Raise e
      end
  end.
Proof.
  split; [reflexivity|]. cbv zeta.
  assert (Hlater : forall files links s1, exists added,
             docs (snd (__init__ lib files links s1)) = docs s1 ++ added).
  { intros files links s1. destruct (steady_init files links) as (r & added & cs & Hrun).
    exists added. destruct (Hrun s1) as [o ->]. reflexivity. }
  rewrite import_module_run.
  pose proof (load_link_cases guide_url
                (extend {| docs := []; stdout := stdout s; calls := calls s |}
                   [] [[PStrList []; PStrList [guide_url]]] [])) as Hlink.
  destruct (WebBaseLoader lib guide_url 1 true) as [loader|e].
  - destruct (load loader) as [l|e].
    + rewrite Hlink. simpl. rewrite !app_nil_r. repeat split.
      intros files links.
      match goal with |- context [__init__ lib files links ?s1] =>
        destruct (Hlater files links s1) as [added ->] end.
      simpl. rewrite !app_nil_r. by exists added.
    + rewrite Hlink. destruct (exn_is_Exception e); simpl; by rewrite !app_nil_r.
  - rewrite Hlink. simpl. by rewrite !app_nil_r.
Qed.

(** C6.  When the loader of a file (PDF or spreadsheet) raises, whether
    on construction or in [load], the construction raises the same:
    [docs] has received the documents of the files before it only, and
    nothing is done for the files after it or for any link.  A raising
    [load] of a web loader, in contrast, is caught. *)
Theorem file_loader_failure_propagates pre f post links s e :
  Forall (fun p => exists l, file_result lib p = Ok l) pre ->
  file_result lib f = Raise e ->
  __init__ lib (Some (pre ++ f :: post)) links s =
    (Raise e,
     extend s (flat_map (file_docs lib) pre)
       [[PStrList (pre ++ f :: post); PStrList (or_empty links)]]
       (flat_map (file_calls lib) (pre ++ [f]))) /\
  (forall link e' s0,
     link_fails lib link e' -> exn_is_Exception e' = true ->
     fst (load_link lib link s0) = Ok tt).
Proof.
  intros Hpre Hf. split.
  - rewrite init_unfold. cbv zeta. rewrite or_empty_Some.
    replace (truthy (pre ++ f :: post)) with true by (by destruct pre).
    cbn [orb]. unfold bind at 1. rewrite print_run.
    unfold bind at 1. rewrite for_each_app, (files_loaded pre _ Hpre).
    cbn [for_each]. unfold bind at 1. rewrite load_file_run, Hf.
    rewrite !extend_extend. unfold file_docs at 2. rewrite Hf.
    rewrite flat_map_app. simpl. by rewrite !app_nil_r.
  - intros link e' s0 Hfail He'.
    destruct (load_link_run link s0) as (o & -> & _); [|reflexivity].
    destruct Hfail as (loader & Hnew & Hload). exists loader. split; [assumption|].
    by rewrite Hload.
Qed.

(** C7.  For links whose loader can be constructed and whose [load]
    returns or raises an [Exception], the construction completes:
    [docs] receives the documents of every link that loaded, in order,
    every link is attempted, and for each link that raised, a line with
    the link and the error text is printed. *)
Theorem bad_links_do_not_abort links s :
  Forall (loads_or_fails lib) links ->
  exists self s',
    __init__ lib None (Some links) s = (Ok self, s') /\
    docs s' = docs s ++ flat_map (link_docs lib) links /\
    calls s' = calls s ++ flat_map link_calls links /\
    (forall link e,
       In link links -> link_fails lib link e ->
       In [PText ("Failed to load " +:+ link +:+ ": " +:+ exn_str e)] (stdout s')).
Proof.
  intros Hall. rewrite init_unfold. cbv zeta. rewrite or_empty_Some. cbn [or_empty truthy orb].
  destruct links as [|link links].
  - exists {| rag_files := []; rag_links := [] |}, s. simpl.
    rewrite !app_nil_r. repeat split. by intros link e [].
  - cbn [truthy]. change (for_each (load_file lib) []) with (@ret state unit tt).
    unfold bind, ret, get. rewrite print_run.
    destruct (links_loaded (link :: links)
                (extend s [] [[PStrList []; PStrList (link :: links)]] []) Hall)
      as (o & Hrun & Ho).
    rewrite Hrun, print_run, !extend_extend.
    eexists. eexists. split; [reflexivity|]. cbn [docs stdout calls extend].
    rewrite !app_nil_l, !app_nil_r. split; [reflexivity|]. split; [reflexivity|].
    intros l e Hin Hfail. apply in_or_app. right. apply in_or_app. right.
    apply in_or_app. left. by apply (Ho l e).
Qed.

(** C8.  With file paths that all end in none of [.pdf], [.xls],
    [.xlsx] (ignoring case) and no links, the construction completes,
    [docs] is as before, no loader is called, and nothing is printed
    about any file (only, when there are paths, the arguments and the
    unchanged list). *)
Theorem unsupported_files_are_skipped files links s :
  Forall unsupported files -> or_empty links = [] ->
  exists self s',
    __init__ lib (Some files) links s = (Ok self, s') /\
    docs s' = docs s /\
    calls s' = calls s /\
    stdout s' = stdout s ++
      (if truthy files then [[PStrList files; PStrList []]; [PDocs (docs s)]] else []).
Proof.
  intros Hall Hlinks. rewrite init_unfold. cbv zeta. rewrite or_empty_Some, Hlinks.
  cbn [truthy]. rewrite orb_false_r. destruct (truthy files).
  - unfold bind, ret, get. rewrite print_run, (unsupported_files_skipped files _ Hall).
    cbn [for_each]. unfold ret. rewrite print_run, extend_extend.
    eexists. eexists. split; [reflexivity|]. simpl. by rewrite !app_nil_r.
  - exists {| rag_files := files; rag_links := [] |}, s. by rewrite app_nil_r.
Qed.

End Facts.

(** *** A run *)

Example demo_two_constructions :
  docs (snd (__init__ demo_langchain None (Some ["https://ok.example"])
               (snd (__init__ demo_langchain (Some ["a.PDF"; "notes.txt"]) None fresh))))
  = [page "a.PDF"; page "https://ok.example"].
Proof. reflexivity. Qed.

Example demo_import :
  docs (snd (import_module demo_langchain fresh)) = [page guide_url] /\
  calls (snd (import_module demo_langchain fresh))
  = [NewWebBaseLoader guide_url 1 true; CallLoad guide_url].
Proof. split; reflexivity. Qed.

Lemma file_loader_failure_propagates_witness :
  __init__ demo_langchain (Some (["a.PDF"] ++ "b.XLSX" :: ["c.pdf"]))
    (Some ["https://ok.example"]) fresh =
    (Raise (mk_exn true "not a workbook"),
     extend fresh (flat_map (file_docs demo_langchain) ["a.PDF"])
       [[PStrList (["a.PDF"] ++ "b.XLSX" :: ["c.pdf"]);
         PStrList (or_empty (Some ["https://ok.example"]))]]
       (flat_map (file_calls demo_langchain) (["a.PDF"] ++ ["b.XLSX"]))) /\
  (forall link e' s0,
     link_fails demo_langchain link e' -> exn_is_Exception e' = true ->
     fst (load_link demo_langchain link s0) = Ok tt).
Proof.
  apply (file_loader_failure_propagates demo_langchain
           ["a.PDF"] "b.XLSX" ["c.pdf"] (Some ["https://ok.example"]) fresh
           (mk_exn true "not a workbook")).
  - constructor; [|constructor]. exists [page "a.PDF"]. reflexivity.
  - reflexivity.
Defined.

Lemma bad_links_do_not_abort_witness :
  exists self s',
    __init__ demo_langchain None
      (Some ["https://ok.example"; "https://bad.example"; "https://deepeval.com"]) fresh
      = (Ok self, s') /\
    docs s' = docs fresh ++
      flat_map (link_docs demo_langchain)
        ["https://ok.example"; "https://bad.example"; "https://deepeval.com"] /\
    calls s' = calls fresh ++
      flat_map link_calls
        ["https://ok.example"; "https://bad.example"; "https://deepeval.com"] /\
    (forall link e,
       In link ["https://ok.example"; "https://bad.example"; "https://deepeval.com"] ->
       link_fails demo_langchain link e ->
       In [PText ("Failed to load " +:+ link +:+ ": " +:+ exn_str e)] (stdout s')).
Proof.
  apply (bad_links_do_not_abort demo_langchain
           ["https://ok.example"; "https://bad.example"; "https://deepeval.com"] fresh).
  repeat constructor; eexists; (split; [reflexivity | simpl; auto]).
Defined.

Lemma unsupported_files_are_skipped_witness :
  exists self s',
    __init__ demo_langchain (Some ["notes.txt"; "README"; "slides.PDF.bak"]) None fresh
      = (Ok self, s') /\
    docs s' = docs fresh /\
    calls s' = calls fresh /\
    stdout s' = stdout fresh ++
      (if truthy ["notes.txt"; "README"; "slides.PDF.bak"]
       then [[PStrList ["notes.txt"; "README"; "slides.PDF.bak"]; PStrList []];
             [PDocs (docs fresh)]]
       else []).
Proof.
  apply (unsupported_files_are_skipped demo_langchain
           ["notes.txt"; "README"; "slides.PDF.bak"] None fresh).
  - repeat constructor; apply unsupported_by_test; reflexivity.
  - reflexivity.
Defined.


Lemma docs_is_shared_and_cumulative_witness :
  docs (snd (__init__ demo_langchain (Some ["a.PDF"; "notes.txt"])
               (Some ["https://bad.example"; "https://ok.example"])
               {| docs := [page "old.pdf"]; stdout := []; calls := [] |}))
  = [page "old.pdf"] ++ [page "a.PDF"; page "https://ok.example"].
Proof.
  exact (proj1 (docs_is_shared_and_cumulative demo_langchain
                  (Some ["a.PDF"; "notes.txt"])
                  (Some ["https://bad.example"; "https://ok.example"]))
           {| docs := [page "old.pdf"]; stdout := []; calls := [] |}).
Defined.

(** *** Further properties of [document_loader] *)

Section More.
Variable lib : langchain.

(** Two suffixes of one string: one is a suffix of the other. *)
Lemma endswith_two (s a b : string) :
  endswith s a = true -> endswith s b = true ->
  endswith a b = true \/ endswith b a = true.
Proof.
  induction s as [|c s IH]; intros Ha Hb.
  - left. rewrite endswith_unfold in Ha.
    destruct (String.eqb_spec "" a) as [<-|]; [exact Hb | discriminate].
  - destruct (String.eqb_spec (String c s) a) as [<-|Hna]; [left; exact Hb|].
    destruct (String.eqb_spec (String c s) b) as [<-|Hnb]; [right; exact Ha|].
    rewrite endswith_unfold in Ha, Hb.
    destruct (String.eqb_spec (String c s) a); [done|].
    destruct (String.eqb_spec (String c s) b); [done|].
    by apply IH.
Qed.

Lemma pdf_is_no_spreadsheet path :
  ends_with_ignoring_case path ".pdf" ->
  ~ ends_with_ignoring_case path ".xls" /\ ~ ends_with_ignoring_case path ".xlsx".
Proof.
  rewrite <- !endswith_lower. intros Hpdf.
  split; intros Hx; destruct (endswith_two _ _ _ Hpdf Hx) as [H|H]; discriminate H.
Qed.

Lemma extension_cases path :
  ends_with_ignoring_case path ".pdf" \/
  (ends_with_ignoring_case path ".xls" \/ ends_with_ignoring_case path ".xlsx") \/
  unsupported path.
Proof.
  unfold unsupported. rewrite <- !endswith_lower.
  destruct (endswith (lower path) ".pdf"); [by left|].
  destruct (endswith (lower path) ".xls"); [right; left; by left|].
  destruct (endswith (lower path) ".xlsx"); [right; left; by right|].
  right. right. done.
Qed.

Lemma links_run_exact links s :
  Forall (loads_or_fails lib) links ->
  for_each (load_link lib) links s =
  (Ok tt, extend s (flat_map (link_docs lib) links) (flat_map (link_output lib) links)
            (flat_map link_calls links)).
Proof.
  intros Hall. revert s.
  induction Hall as [|link links (loader & Hnew & Hload) _ IH]; intros s;
    cbn [for_each flat_map].
  - by rewrite extend_nil.
  - unfold bind. pose proof (load_link_cases lib link s) as Hrun.
    unfold link_docs at 1, link_output at 1. rewrite Hnew in Hrun |- *.
    destruct (load loader) as [l|e].
    + rewrite Hrun, IH. by rewrite extend_extend.
    + simpl in Hload. rewrite Hload in Hrun. rewrite Hrun, IH. by rewrite extend_extend.
Qed.

(** X9.  A path that ends in [.pdf], whatever the case of the letters,
    goes to the PDF loader and to no other: the loader is constructed,
    [load] is called if that succeeded, and its documents are appended
    or what it raised is raised.  A path that ends in [.xls] or [.xlsx]
    goes in the same way to the spreadsheet loader and to no other.
    Every other path is passed over without any effect.  So the PDF
    loader is constructed exactly for the paths in [.pdf], the
    spreadsheet loader exactly for those in [.xls] or [.xlsx], and each
    path falls under one of the three cases. *)
Theorem file_dispatch_by_extension path s :
  (ends_with_ignoring_case path ".pdf" ->
   load_file lib path s =
   match PyPDFLoader lib path with
   | Ok loader =>
       match load loader with
       | Ok l => (Ok tt, extend s l [] [NewPyPDFLoader path; CallLoad path])
       | Raise e => (Raise e, extend s [] [] [NewPyPDFLoader path; CallLoad path])
       end
   | Raise e => (Raise e, extend s [] [] [NewPyPDFLoader path])
   end) /\
  (ends_with_ignoring_case path ".xls" \/ ends_with_ignoring_case path ".xlsx" ->
   load_file lib path s =
   match UnstructuredExcelLoader lib path with
   | Ok loader =>
       match load loader with
       | Ok l => (Ok tt, extend s l [] [NewUnstructuredExcelLoader path; CallLoad path])
       | Raise e =>
           (Raise e, extend s [] [] [NewUnstructuredExcelLoader path; CallLoad path])
       end
   | Raise e => (Raise e, extend s [] [] [NewUnstructuredExcelLoader path])
   end) /\
  (unsupported path -> load_file lib path s = (Ok tt, s)) /\
  (exists new,
     calls (snd (load_file lib path s)) = calls s ++ new /\
     (In (NewPyPDFLoader path) new <-> ends_with_ignoring_case path ".pdf") /\
     (In (NewUnstructuredExcelLoader path) new <->
      ends_with_ignoring_case path ".xls" \/ ends_with_ignoring_case path ".xlsx") /\
     (forall c, In c new ->
        c = NewPyPDFLoader path \/ c = NewUnstructuredExcelLoader path \/
        c = CallLoad path)) /\
  (ends_with_ignoring_case path ".pdf" \/
   (ends_with_ignoring_case path ".xls" \/ ends_with_ignoring_case path ".xlsx") \/
   unsupported path).
Proof.
  assert (Hex : endswith (lower path) ".pdf" = true ->
                endswith (lower path) ".xls" = false /\
                endswith (lower path) ".xlsx" = false).
  { intros Hpdf. apply endswith_lower, pdf_is_no_spreadsheet in Hpdf as [Hxls Hxlsx].
    rewrite <- endswith_lower in Hxls, Hxlsx.
    by apply not_true_is_false in Hxls, Hxlsx. }
  rewrite load_file_run. unfold file_docs, file_result, file_calls.
  split; [|split; [|split; [|split]]].
  - intros Hpdf. apply endswith_lower in Hpdf. rewrite Hpdf.
    destruct (PyPDFLoader lib path) as [loader|e]; [|reflexivity].
    by destruct (load loader).
  - intros Hx.
    assert (Hor : endswith (lower path) ".xls" || endswith (lower path) ".xlsx" = true).
    { apply orb_true_iff. by rewrite !endswith_lower. }
    destruct (endswith (lower path) ".pdf") eqn:Hpdf.
    { destruct (Hex eq_refl) as [Hxls Hxlsx]. rewrite Hxls, Hxlsx in Hor. discriminate. }
    rewrite Hor. destruct (UnstructuredExcelLoader lib path) as [loader|e]; [|reflexivity].
    by destruct (load loader).
  - intros (Hpdf & Hxls & Hxlsx). rewrite <- endswith_lower in Hpdf, Hxls, Hxlsx.
    apply not_true_is_false in Hpdf, Hxls, Hxlsx. rewrite Hpdf, Hxls, Hxlsx.
    by rewrite extend_nil.
  - eexists. split; [reflexivity|]. rewrite <- !endswith_lower.
    destruct (endswith (lower path) ".pdf") eqn:Hpdf.
    + destruct (Hex eq_refl) as [-> ->].
      destruct (PyPDFLoader lib path); simpl; intuition (try discriminate; auto).
    + destruct (endswith (lower path) ".xls"), (endswith (lower path) ".xlsx"); simpl;
        destruct (UnstructuredExcelLoader lib path); simpl;
        intuition (try discriminate; auto).
  - apply extension_cases.
Qed.

(** X10.  When every file loads and every link loads or fails with an
    [Exception], the construction returns the instance; [docs] has
    received the documents of the files, in order, and after them those
    of the links, in order; the files' loaders were called before the
    links'; and the output is the arguments, per link the loader and
    (only for a failed link) the failure, and last the whole list. *)
Theorem construction_loads_files_then_links files links s :
  Forall (fun p => exists l, file_result lib p = Ok l) files ->
  Forall (loads_or_fails lib) links ->
  truthy files || truthy links = true ->
  __init__ lib (Some files) (Some links) s =
  (Ok {| rag_files := files; rag_links := links |},
   extend s
     (flat_map (file_docs lib) files ++ flat_map (link_docs lib) links)
     ([[PStrList files; PStrList links]]
      ++ flat_map (link_output lib) links
      ++ [[PDocs (docs s ++ flat_map (file_docs lib) files
                  ++ flat_map (link_docs lib) links)]])
     (flat_map (file_calls lib) files ++ flat_map link_calls links)).
Proof.
  intros Hfiles Hlinks Hsome. rewrite init_unfold. cbv zeta. rewrite !or_empty_Some, Hsome.
  unfold bind, ret, get. rewrite print_run, (files_loaded lib files _ Hfiles).
  rewrite (links_run_exact links _ Hlinks), print_run, !extend_extend.
  cbn [docs extend]. by rewrite ?app_nil_l, ?app_nil_r, <- ?app_assoc.
Qed.

(** X11.  The list that [_build_vectorstore] returns is the whole
    module-level list as it stands afterwards, earlier documents
    included, and it is what was printed last. *)
Theorem build_vectorstore_returns_shared_list self s l s' :
  _build_vectorstore lib self s = (Ok l, s') ->
  l = docs s' /\
  (exists added, l = docs s ++ added) /\
  last (stdout s') = Some [PDocs l].
Proof.
  unfold _build_vectorstore.
  destruct (steady_for_each (load_file lib) (rag_files self) (steady_load_file lib))
    as (r1 & d1 & c1 & Hfiles).
  destruct (steady_for_each (load_link lib) (rag_links self) (steady_load_link lib))
    as (r2 & d2 & c2 & Hlinks).
  unfold bind, ret, get. destruct (Hfiles s) as [o1 ->].
  destruct r1 as [[]|e]; [|discriminate].
  destruct (Hlinks (extend s d1 o1 c1)) as [o2 ->].
  destruct r2 as [[]|e]; [|discriminate].
  rewrite print_run, !extend_extend. intros [= <- <-]. cbn [docs stdout extend].
  rewrite !app_nil_r. split; [done|]. split; [by exists (d1 ++ d2)|].
  rewrite !app_assoc. apply last_snoc.
Qed.

(** X12.  The [WebBaseLoader] constructor is called outside the [try]:
    when it raises for a link, [Exception] or not, the construction
    raises the same; no failure line is printed for that link, the links
    after it are not attempted, and [docs] keeps what the files and the
    links before it gave. *)
Theorem web_constructor_failure_propagates files pre link post s e :
  Forall (fun p => exists l, file_result lib p = Ok l) files ->
  Forall (loads_or_fails lib) pre ->
  WebBaseLoader lib link 1 true = Raise e ->
  __init__ lib (Some files) (Some (pre ++ link :: post)) s =
  (Raise e,
   extend s
     (flat_map (file_docs lib) files ++ flat_map (link_docs lib) pre)
     ([[PStrList files; PStrList (pre ++ link :: post)]]
      ++ flat_map (link_output lib) pre)
     (flat_map (file_calls lib) files ++ flat_map link_calls pre
      ++ [NewWebBaseLoader link 1 true])).
Proof.
  intros Hfiles Hpre Hnew. rewrite init_unfold. cbv zeta. rewrite !or_empty_Some.
  replace (truthy (pre ++ link :: post)) with true by (by destruct pre).
  rewrite orb_true_r. unfold bind at 1. rewrite print_run.
  unfold bind at 1. rewrite (files_loaded lib files _ Hfiles).
  unfold bind at 1. rewrite for_each_app, (links_run_exact pre _ Hpre).
  cbn [for_each]. unfold bind at 1.
  pose proof (load_link_cases lib link
                (extend (extend (extend s [] [[PStrList files; PStrList (pre ++ link :: post)]] [])
                           (flat_map (file_docs lib) files) [] (flat_map (file_calls lib) files))
                   (flat_map (link_docs lib) pre) (flat_map (link_output lib) pre)
                   (flat_map link_calls pre))) as Hrun.
  rewrite Hnew in Hrun. rewrite Hrun, !extend_extend.
  by rewrite ?app_nil_l, ?app_nil_r, <- ?app_assoc.
Qed.

(** X13.  When [load] of a web loader raises something that is not an
    [Exception], the construction raises it: the loader was announced
    but no failure line follows, the links after it are not attempted,
    and [docs] keeps what the files and the links before it gave. *)
Theorem interrupt_in_web_load_propagates files pre link post s loader e :
  Forall (fun p => exists l, file_result lib p = Ok l) files ->
  Forall (loads_or_fails lib) pre ->
  WebBaseLoader lib link 1 true = Ok loader ->
  load loader = Raise e ->
  exn_is_Exception e = false ->
  __init__ lib (Some files) (Some (pre ++ link :: post)) s =
  (Raise e,
   extend s
     (flat_map (file_docs lib) files ++ flat_map (link_docs lib) pre)
     ([[PStrList files; PStrList (pre ++ link :: post)]]
      ++ flat_map (link_output lib) pre
      ++ [[PText "*"; PLoader (loader_repr loader)]])
     (flat_map (file_calls lib) files ++ flat_map link_calls pre ++ link_calls link)).
Proof.
  intros Hfiles Hpre Hnew Hload He. rewrite init_unfold. cbv zeta. rewrite !or_empty_Some.
  replace (truthy (pre ++ link :: post)) with true by (by destruct pre).
  rewrite orb_true_r. unfold bind at 1. rewrite print_run.
  unfold bind at 1. rewrite (files_loaded lib files _ Hfiles).
  unfold bind at 1. rewrite for_each_app, (links_run_exact pre _ Hpre).
  cbn [for_each]. unfold bind at 1.
  pose proof (load_link_cases lib link
                (extend (extend (extend s [] [[PStrList files; PStrList (pre ++ link :: post)]] [])
                           (flat_map (file_docs lib) files) [] (flat_map (file_calls lib) files))
                   (flat_map (link_docs lib) pre) (flat_map (link_output lib) pre)
                   (flat_map link_calls pre))) as Hrun.
  rewrite Hnew, Hload, He in Hrun. rewrite Hrun, !extend_extend.
  by rewrite ?app_nil_l, ?app_nil_r, <- ?app_assoc.
Qed.

(** X14.  Nothing is deduplicated: constructing twice with the same
    arguments, against a library that answers the same both times,
    appends the same documents twice. *)
Theorem same_arguments_twice_duplicate files links :
  exists added, forall s,
    docs (snd (__init__ lib files links s)) = docs s ++ added /\
    docs (snd (__init__ lib files links (snd (__init__ lib files links s))))
    = docs s ++ added ++ added.
Proof.
  destruct (steady_init lib files links) as (r & added & cs & Hrun).
  exists added. intros s. destruct (Hrun s) as [o Hs]. rewrite Hs. simpl.
  split; [reflexivity|].
  destruct (Hrun (extend s added o cs)) as [o' ->]. simpl. by rewrite app_assoc.
Qed.

End More.

Example demo_dispatch :
  calls (snd (load_file demo_langchain "Report.PDF" fresh))
    = [NewPyPDFLoader "Report.PDF"; CallLoad "Report.PDF"] /\
  calls (snd (load_file demo_langchain "book.XlsX" fresh))
    = [NewUnstructuredExcelLoader "book.XlsX"; CallLoad "book.XlsX"] /\
  load_file demo_langchain "report.pdf.txt" fresh = (Ok tt, fresh).
Proof. repeat split. Qed.

Lemma construction_loads_files_then_links_witness :
  __init__ demo_langchain (Some ["a.PDF"; "notes.txt"])
    (Some ["https://ok.example"; "https://bad.example"]) fresh =
  (Ok {| rag_files := ["a.PDF"; "notes.txt"];
         rag_links := ["https://ok.example"; "https://bad.example"] |},
   extend fresh
     (flat_map (file_docs demo_langchain) ["a.PDF"; "notes.txt"]
      ++ flat_map (link_docs demo_langchain) ["https://ok.example"; "https://bad.example"])
     ([[PStrList ["a.PDF"; "notes.txt"];
        PStrList ["https://ok.example"; "https://bad.example"]]]
      ++ flat_map (link_output demo_langchain) ["https://ok.example"; "https://bad.example"]
      ++ [[PDocs (docs fresh ++ flat_map (file_docs demo_langchain) ["a.PDF"; "notes.txt"]
                  ++ flat_map (link_docs demo_langchain)
                       ["https://ok.example"; "https://bad.example"])]])
     (flat_map (file_calls demo_langchain) ["a.PDF"; "notes.txt"]
      ++ flat_map link_calls ["https://ok.example"; "https://bad.example"])).
Proof.
  apply (construction_loads_files_then_links demo_langchain
           ["a.PDF"; "notes.txt"] ["https://ok.example"; "https://bad.example"] fresh).
  - repeat constructor; eexists; reflexivity.
  - repeat constructor; eexists; (split; [reflexivity | simpl; auto]).
  - reflexivity.
Defined.

Lemma build_vectorstore_returns_shared_list_witness :
  [page "old.pdf"; page "a.PDF"] =
    docs (snd (_build_vectorstore demo_langchain
                 {| rag_files := ["a.PDF"]; rag_links := [] |}
                 {| docs := [page "old.pdf"]; stdout := []; calls := [] |})) /\
  (exists added, [page "old.pdf"; page "a.PDF"] = [page "old.pdf"] ++ added) /\
  last (stdout (snd (_build_vectorstore demo_langchain
                       {| rag_files := ["a.PDF"]; rag_links := [] |}
                       {| docs := [page "old.pdf"]; stdout := []; calls := [] |})))
  = Some [PDocs [page "old.pdf"; page "a.PDF"]].
Proof.
  apply (build_vectorstore_returns_shared_list demo_langchain
           {| rag_files := ["a.PDF"]; rag_links := [] |}
           {| docs := [page "old.pdf"]; stdout := []; calls := [] |}).
  reflexivity.
Defined.

Lemma web_constructor_failure_propagates_witness :
  __init__ strict_langchain (Some ["a.PDF"])
    (Some (["https://bad.example"] ++ "ftp://files.example" :: ["https://ok.example"]))
    fresh =
  (Raise (mk_exn true "No connection adapters were found"),
   extend fresh
     (flat_map (file_docs strict_langchain) ["a.PDF"]
      ++ flat_map (link_docs strict_langchain) ["https://bad.example"])
     ([[PStrList ["a.PDF"];
        PStrList (["https://bad.example"] ++ "ftp://files.example"
                  :: ["https://ok.example"])]]
      ++ flat_map (link_output strict_langchain) ["https://bad.example"])
     (flat_map (file_calls strict_langchain) ["a.PDF"]
      ++ flat_map link_calls ["https://bad.example"]
      ++ [NewWebBaseLoader "ftp://files.example" 1 true])).
Proof.
  apply (web_constructor_failure_propagates strict_langchain
           ["a.PDF"] ["https://bad.example"] "ftp://files.example" ["https://ok.example"]
           fresh (mk_exn true "No connection adapters were found")).
  - repeat constructor; eexists; reflexivity.
  - repeat constructor; eexists; (split; [reflexivity | simpl; auto]).
  - reflexivity.
Defined.

Lemma interrupt_in_web_load_propagates_witness :
  __init__ strict_langchain (Some ["a.PDF"])
    (Some (["https://ok.example"] ++ "https://slow.example" :: ["https://deepeval.com"]))
    fresh =
  (Raise (mk_exn false "KeyboardInterrupt"),
   extend fresh
     (flat_map (file_docs strict_langchain) ["a.PDF"]
      ++ flat_map (link_docs strict_langchain) ["https://ok.example"])
     ([[PStrList ["a.PDF"];
        PStrList (["https://ok.example"] ++ "https://slow.example"
                  :: ["https://deepeval.com"])]]
      ++ flat_map (link_output strict_langchain) ["https://ok.example"]
      ++ [[PText "*"; PLoader "<WebBaseLoader>"]])
     (flat_map (file_calls strict_langchain) ["a.PDF"]
      ++ flat_map link_calls ["https://ok.example"]
      ++ link_calls "https://slow.example")).
Proof.
  apply (interrupt_in_web_load_propagates strict_langchain
           ["a.PDF"] ["https://ok.example"] "https://slow.example" ["https://deepeval.com"]
           fresh
           {| loader_repr := "<WebBaseLoader>";
              load := Raise (mk_exn false "KeyboardInterrupt") |}
           (mk_exn false "KeyboardInterrupt")).
  - repeat constructor; eexists; reflexivity.
  - repeat constructor; eexists; (split; [reflexivity | simpl; auto]).
  - reflexivity.
  - reflexivity.
  - reflexivity.
Defined.

End loader_facts.
